(** * log_processor_2.py: classification of Moddable instrumentation lines

    A shallow embedding of [src/log_processor_2.py].

    Modelling conventions.
    - A Python [str] is a [list ascii]; a character is read as the code
      point of the same number (0..255).  Decoding of the input file is
      not modelled: a file holds text.  On this range the regular
      expression class [\d] is exactly the ten ASCII digits.
    - A Python [int] is an [N]: the only integers of the program are
      parsed from [\d+].  The interpreter refuses to convert a decimal
      string of more than [int_max_str_digits] digits; the value it has
      when nothing sets it is the one taken here.
    - Code that can raise returns a [result]; code that touches the file
      system or the clock runs in the monad [M] over a [world].
    - The file system is a finite map from paths to contents: opening a
      path for writing always succeeds, and a line feed is written as it
      is. *)

From Stdlib Require Import Ascii String NArith.
From Stdlib Require Import DecimalString DecimalPos DecimalN DecimalFacts.
From stdpp Require Import base tactics option list gmap strings.

Local Open Scope list_scope.

(** ** Text *)

Abbreviation text := (list ascii).

(** Literals are written as Rocq strings. *)
Definition txt (s : string) : text := list_ascii_of_string s.

Definition ord (c : ascii) : nat := nat_of_ascii c.

Definition NEWLINE : ascii := ascii_of_nat 10.
Definition CR : ascii := ascii_of_nat 13.
Definition DQUOTE : ascii := ascii_of_nat 34.
Definition BACKSLASH : ascii := ascii_of_nat 92.
Definition COMMA : ascii := ascii_of_nat 44.
Definition SPACE : ascii := ascii_of_nat 32.
Definition ZERO : ascii := ascii_of_nat 48.

(** [\d] of [re] on [str] patterns. *)
Definition is_digit (c : ascii) : bool :=
  (48 <=? ord c) && (ord c <=? 57).

(** [.] of [re] without [DOTALL]: anything but a line feed. *)
Definition is_dot (c : ascii) : bool := negb (Ascii.eqb c NEWLINE).

(** The characters [str.strip()] removes: [str.isspace] on 0..255. *)
Definition is_space (c : ascii) : bool :=
  let n := ord c in
  ((9 <=? n) && (n <=? 13)) || ((28 <=? n) && (n <=? 32))
  || (n =? 133) || (n =? 160).

Fixpoint take_while (p : ascii -> bool) (s : text) : text :=
  match s with
  | [] => []
  | c :: s' => if p c then c :: take_while p s' else []
  end.

Fixpoint drop_while (p : ascii -> bool) (s : text) : text :=
  match s with
  | [] => []
  | c :: s' => if p c then drop_while p s' else s
  end.

(** [s.startswith(pre)], returning what follows the prefix. *)
Fixpoint strip_prefix (pre s : text) : option text :=
  match pre, s with
  | [], _ => Some s
  | _ :: _, [] => None
  | a :: pre', b :: s' => if Ascii.eqb a b then strip_prefix pre' s' else None
  end.

Definition startswith (pre s : text) : bool :=
  match strip_prefix pre s with Some _ => true | None => false end.

(** [sub in s]. *)
Fixpoint contains (sub s : text) : bool :=
  startswith sub s ||
  match s with
  | [] => false
  | _ :: s' => contains sub s'
  end.

(** [s.split(sep)] for a one-character separator: never empty, and the
    empty string gives one empty item. *)
Fixpoint split (sep : ascii) (s : text) : list text :=
  match s with
  | [] => [[]]
  | c :: s' =>
      if Ascii.eqb c sep then [] :: split sep s'
      else match split sep s' with
           | item :: items => (c :: item) :: items
           | [] => [[c]]
           end
  end.

(** [sep.join(items)]. *)
Fixpoint join (sep : ascii) (items : list text) : text :=
  match items with
  | [] => []
  | [item] => item
  | item :: items' => item ++ sep :: join sep items'
  end.

(** [s.replace(old, new)] for a non-empty [old]: scan from the left,
    and after a hit resume behind it.  [skip] counts the characters of
    the current hit that are still to be passed over. *)
Fixpoint replace_from (old new : text) (skip : nat) (s : text) : text :=
  match s with
  | [] => []
  | c :: s' =>
      match skip with
      | S k => replace_from old new k s'
      | O =>
          if startswith old s
          then new ++ replace_from old new (length old - 1) s'
          else c :: replace_from old new 0 s'
      end
  end.

Definition replace (old new s : text) : text := replace_from old new 0 s.

(** [s.lstrip()], [s.rstrip()], [s.strip()]. *)
Definition lstrip (s : text) : text := drop_while is_space s.
Definition rstrip (s : text) : text := rev (drop_while is_space (rev s)).
Definition strip (s : text) : text := rstrip (lstrip s).

(** ** Exceptions *)

Inductive exn := ValueError | FileNotFoundError.

Inductive result (A : Type) :=
| Returned (a : A)
| Raised (e : exn).
Arguments Returned {A} a.
Arguments Raised {A} e.

Global Instance result_ret : MRet result := @Returned.
Global Instance result_bind : MBind result := fun A B k r =>
  match r with
  | Returned a => k a
  | Raised e => Raised e
  end.

(** ** Integers *)

(** [sys.int_max_str_digits] as the interpreter starts with it. *)
Definition int_max_str_digits : nat := 4300.

(** [int(s)] on a string of decimal digits.  A string of more digits
    than [int_max_str_digits], zeros in front counted, raises
    [ValueError].  Python's [int] also takes a sign, underscores and
    blanks around the number; the program only ever passes group 1 of the
    pattern, a run of digits, and every other string is taken to raise
    here. *)
Definition py_int (s : text) : result N :=
  if int_max_str_digits <? length s then Raised ValueError
  else
    match NilZero.uint_of_string (string_of_list_ascii s) with
    | Some d => Returned (N.of_uint d)
    | None => Raised ValueError
    end.

(** [str(n)], which is what the f-string [f'{n}'] inserts.  The same
    limit holds for this direction; the integers the program formats come
    out of [int] and have no more digits than the string they were read
    from, so it is never met. *)
Definition py_str (n : N) : text :=
  list_ascii_of_string (NilZero.string_of_uint (N.to_uint n)).

(** ** The classifier *)

Inductive kind := worker | controller.

Global Instance kind_eq_dec : EqDecision kind.
Proof. solve_decision. Defined.

(** [re.match(r'(\d+) instruments: (.+)', line)], giving the two groups.
    The match is anchored at the start only.  [\d+] is greedy and must
    be followed by a blank, so it takes the whole run of digits; [.+] is
    greedy and nothing follows it, so it runs to the first line feed or
    to the end. *)
Definition re_match (line : text) : option (text * text) :=
  match take_while is_digit line with
  | [] => None
  | digits =>
      match strip_prefix (txt " instruments: ") (drop_while is_digit line) with
      | None => None
      | Some rest =>
          match take_while is_dot rest with
          | [] => None
          | data => Some (digits, data)
          end
      end
  end.

(** [parse_log_line].  [None] is the triple [(None, None, None)] of the
    source; [Some (key, timestamp, data)] is a triple whose key is one of
    the two strings. *)
Definition parse_log_line (line : text) : result (option (kind * N * text)) :=
  if contains (txt "instruments:") line then
    match re_match line with
    | Some (timestamp, data) =>
        timestamp ← py_int timestamp;
        let data_items := split COMMA data in
        if length data_items =? 11 then
          Returned (Some (worker, timestamp, data))
        else if length data_items =? 24 then
          Returned (Some (controller, timestamp, data))
        else Returned None
    | None => Returned None
    end
  else Returned None.

(** ** The world: wall clock and file system *)

Record world := World {
  now : Z;                       (* what [datetime.now()] would read *)
  files : gmap string text       (* path to contents *)
}.

Definition with_files (f : gmap string text → gmap string text) (w : world) : world :=
  World (now w) (f (files w)).

(** A computation may raise, and what it did to the world before stays. *)
Definition M (A : Type) : Type := world → result A * world.

Global Instance M_ret : MRet M := fun A a w => (Returned a, w).
Global Instance M_bind : MBind M := fun A B k m w =>
  match m w with
  | (Returned a, w') => k a w'
  | (Raised e, w') => (Raised e, w')
  end.

Definition lift {A} (r : result A) : M A := fun w => (r, w).

(** Text mode reading translates [\r\n] and a lone [\r] to [\n].
    [after_cr] tells that the previous character was a carriage return,
    whose line feed has been produced already. *)
Fixpoint universal_newlines_from (after_cr : bool) (s : text) : text :=
  match s with
  | [] => []
  | c :: s' =>
      if Ascii.eqb c CR then NEWLINE :: universal_newlines_from true s'
      else if Ascii.eqb c NEWLINE then
        if after_cr then universal_newlines_from false s'
        else NEWLINE :: universal_newlines_from false s'
      else c :: universal_newlines_from false s'
  end.

Definition universal_newlines : text → text := universal_newlines_from false.

(** Iterating over a text: each line keeps its line feed, the last line
    may lack one. *)
Fixpoint iter_lines (s : text) : list text :=
  match s with
  | [] => []
  | c :: s' =>
      if Ascii.eqb c NEWLINE then [c] :: iter_lines s'
      else match iter_lines s' with
           | l :: ls => (c :: l) :: ls
           | [] => [[c]]
           end
  end.

(** [with open(path, 'r') as file: for line in file]: the lines. *)
Definition read_lines (path : string) : M (list text) := fun w =>
  match files w !! path with
  | Some content => (Returned (iter_lines (universal_newlines content)), w)
  | None => (Raised FileNotFoundError, w)
  end.

(** [open(path, 'w')] creates or truncates; [output.write(s)] appends. *)
Definition open_w (path : string) : M unit := fun w =>
  (Returned (), with_files (insert path []) w).

Definition write (path : string) (s : text) : M unit := fun w =>
  (Returned (), with_files (alter (fun content => content ++ s) path) w).

Fixpoint for_each {A} (xs : list A) (body : A → M unit) : M unit :=
  match xs with
  | [] => mret ()
  | x :: xs' => body x;; for_each xs' body
  end.

(** ** The batch writer and the cycle *)

Definition WORKER_CSV_HEADER : text :=
  txt "timestamp,Chunk used,Chunk available,Slot used,Slot available,Stack used,Stack available,Garbage collections,Keys used,Modules loaded,Parser used,Floating Point"
  ++ [NEWLINE].

Definition CONTROLLER_CSV_HEADER : text :=
  txt "timestamp,Pixels drawn,Frames drawn,Network bytes read,Network bytes written,Network sockets,Timers,Files,Poco display list used,Piu command List used,SPI flash erases,System bytes free,CPU 0,CPU 1,Chunk used,Chunk available,Slot used,Slot available,Stack used,Stack available,Garbage collections,Keys used,Modules loaded,Parser used,Floating Point"
  ++ [NEWLINE].

Definition write_logs_to_file (logs : list text) (output_file : string) (header : text) : M unit :=
  open_w output_file;;
  write output_file header;;
  for_each logs (fun log => write output_file (log ++ [NEWLINE])).

(** The f-string [f'{timestamp}, {escaped_data.strip()}']. *)
Definition log_entry (timestamp : N) (data : text) : text :=
  let escaped_data := replace [DQUOTE] [BACKSLASH; DQUOTE] data in
  py_str timestamp ++ txt ", " ++ strip escaped_data.

(** The body of the loop of [process_log], on the two local lists. *)
Definition process_line (logs : list text * list text) (line : text)
  : result (list text * list text) :=
  let '(worker_logs, controller_logs) := logs in
  parsed ← parse_log_line line;
  match parsed with
  | Some (key, timestamp, data) =>
      match key with
      | worker => Returned (worker_logs ++ [log_entry timestamp data], controller_logs)
      | controller => Returned (worker_logs, controller_logs ++ [log_entry timestamp data])
      end
  | None => Returned logs
  end.

Fixpoint process_lines (logs : list text * list text) (lines : list text)
  : result (list text * list text) :=
  match lines with
  | [] => Returned logs
  | line :: lines' => logs' ← process_line logs line; process_lines logs' lines'
  end.

Definition process_log (input_file worker_file controller_file : string) : M unit :=
  lines ← read_lines input_file;
  logs ← lift (process_lines ([], []) lines);
  write_logs_to_file logs.1 worker_file WORKER_CSV_HEADER;;
  write_logs_to_file logs.2 controller_file CONTROLLER_CSV_HEADER.

(** ** The unused calendar conversion *)

Record datetime := DateTime {
  year : Z; month : Z; day : Z; hour : Z; minute : Z; second : Z
}.

Definition is_leap (y : Z) : bool :=
  ((y mod 4 =? 0)%Z && negb (y mod 100 =? 0)%Z) || (y mod 400 =? 0)%Z.

Definition days_in_month (y m : Z) : Z :=
  if (m =? 2)%Z then (if is_leap y then 29 else 28)%Z
  else if ((m =? 4) || (m =? 6) || (m =? 9) || (m =? 11))%Z then 30%Z
  else 31%Z.

(** [dt.replace(year=y)]: the 29th of February exists in leap years only. *)
Definition replace_year (dt : datetime) (y : Z) : result datetime :=
  if (day dt <=? days_in_month y (month dt))%Z
  then Returned (DateTime y (month dt) (day dt) (hour dt) (minute dt) (second dt))
  else Raised ValueError.

Section Calendar.
(** What the standard library supplies: [datetime.strptime] with the
    format ["%b %d %H:%M:%S"], the calendar year of a clock reading, and
    [dt.timestamp()] in the time zone of the host, cut to an integer. *)
Variable strptime : text → result datetime.
Variable year_of_clock : Z → Z.
Variable timestamp_of : datetime → Z.

Definition convert_to_unix_timestamp (timestamp_str : text) : M Z := fun w =>
  (dt ← strptime timestamp_str;
   dt ← replace_year dt (year_of_clock (now w));
   Returned (timestamp_of dt), w).
End Calendar.

(** ** The polling loop *)

Definition sleep (secs : Z) : M unit := fun w =>
  (Returned (), World (now w + secs) (files w)).

Definition input_file : string := "nonMem.log".
Definition worker_file : string := "database/worker_file2.csv".
Definition controller_file : string := "database/controller_file2.csv".

(** The first [n] turns of [while True]; the progress message printed at
    each turn is left out. *)
Fixpoint main_loop (n : nat) : M unit :=
  match n with
  | O => mret ()
  | S n' =>
      process_log input_file worker_file controller_file;;
      sleep 1;;
      main_loop n'
  end.

(** ** Notions of the specification *)

Definition MARKER : text := txt "instruments:".
Definition LITERAL : text := txt " instruments: ".

(** Where group 2 of the pattern stops: at the end of the string or in
    front of a line feed. *)
Definition group_end (tail : text) : bool :=
  match tail with
  | [] => true
  | c :: _ => Ascii.eqb c NEWLINE
  end.

(** A line as the iteration over a text file hands it out: a line feed
    can only be its last character. *)
Definition file_line (line : text) : bool :=
  forallb is_dot (removelast line).

(** [^\d+ instruments: (.+)$]: the dollar matches at the end and in
    front of a line feed that ends the string. *)
Definition matches_anchored (line : text) : Prop :=
  ∃ digits data tail,
    line = digits ++ LITERAL ++ data ++ tail ∧
    digits ≠ [] ∧ forallb is_digit digits = true ∧
    data ≠ [] ∧ forallb is_dot data = true ∧
    (tail = [] ∨ tail = [NEWLINE]).

(** A line the pattern matches with an integer of more digits than [int]
    converts. *)
Definition long_integer (line : text) : bool :=
  match re_match line with
  | Some (digits, _) => int_max_str_digits <? length digits
  | None => false
  end.

(** The key a line is filed under, if any. *)
Definition classify (line : text) : option kind :=
  match parse_log_line line with
  | Returned (Some (key, _, _)) => Some key
  | _ => None
  end.

Definition count_kind (key : kind) (lines : list text) : nat :=
  length (filter (fun line => classify line = Some key) lines).

(** The rows a list of lines contributes under one key. *)
Fixpoint rows_of (key : kind) (lines : list text) : list text :=
  match lines with
  | [] => []
  | line :: lines' =>
      match parse_log_line line with
      | Returned (Some (key', timestamp, data)) =>
          if decide (key' = key)
          then log_entry timestamp data :: rows_of key lines'
          else rows_of key lines'
      | _ => rows_of key lines'
      end
  end.

(** Each double quote gets a backslash in front, nothing else changes. *)
Definition escape_quotes (s : text) : text :=
  flat_map (fun c => if Ascii.eqb c DQUOTE then [BACKSLASH; DQUOTE] else [c]) s.

(** The value of a run of decimal digits, most significant first. *)
Definition digit_value (c : ascii) : N := N.of_nat (ord c - 48).
Definition decimal_value (digits : text) : N :=
  fold_left (fun acc c => (10 * acc + digit_value c)%N) digits 0%N.

(** How often a character occurs. *)
Definition count_char (c : ascii) (s : text) : nat :=
  length (filter (fun x => Ascii.eqb x c = true) s).

(** The lines the loop of [process_log] sees for a file content. *)
Definition input_lines (content : text) : list text :=
  iter_lines (universal_newlines content).

(** A header followed by one line per row. *)
Definition csv (header : text) (rows : list text) : text :=
  header ++ concat (map (fun row => row ++ [NEWLINE]) rows).

(** A run of 4301 digits, one more than [int] converts, and lines that
    begin with it. *)
Definition long_digits : text := repeat (ascii_of_nat 49) 4301.

Definition long_worker_line : text :=
  long_digits ++ txt " instruments: 1,2,3,4,5,6,7,8,9,10,11".

Definition long_controller_line : text :=
  long_digits
  ++ txt " instruments: 1,2,3,4,5,6,7,8,9,10,11,12,13,14,15,16,17,18,19,20,21,22,23,24".

Definition long_other_line : text := long_digits ++ txt " instruments: 1,2,3,4,5".


(** A small log: one line of noise, one worker line, one controller line. *)
Definition sample_log : text :=
  txt "wifi: connected" ++ [NEWLINE]
  ++ txt "1 instruments: 1,2,3,4,5,6,7,8,9,10,11" ++ [NEWLINE]
  ++ txt "2 instruments: 1,2,3,4,5,6,7,8,9,10,11,12,13,14,15,16,17,18,19,20,21,22,23,24"
  ++ [NEWLINE].

Definition sample_world (clock : Z) : world :=
  World clock {[ input_file := sample_log ]}.

(** A log of one worker line, with 4301 digits in front, and one
    controller line. *)
Definition long_log : text :=
  long_worker_line ++ [NEWLINE]
  ++ txt "2 instruments: 1,2,3,4,5,6,7,8,9,10,11,12,13,14,15,16,17,18,19,20,21,22,23,24"
  ++ [NEWLINE].

Definition long_world : world := World 0 {[ input_file := long_log ]}.

(** A text with every line feed written as carriage return and line
    feed, as some hosts end their lines. *)
Definition to_crlf (s : text) : text :=
  flat_map (fun c => if Ascii.eqb c NEWLINE then [CR; NEWLINE] else [c]) s.

Definition no_cr (s : text) : bool :=
  forallb (fun c => negb (Ascii.eqb c CR)) s.

(** A world whose input file is empty. *)
Definition empty_log_world : world := World 0 {[ input_file := [] ]}.

(** A bound on a length between concrete numbers, by computation. *)
Ltac within_limit := apply Nat.leb_le; reflexivity.

(** ** Lemmas on text *)

Section TakeDrop.
Variable p : ascii → bool.

Lemma take_drop_while s : take_while p s ++ drop_while p s = s.
Proof. induction s as [|c s IH]; simpl; [done|]. destruct (p c); simpl; by f_equal. Qed.

Lemma forallb_take_while s : forallb p (take_while p s) = true.
Proof. induction s as [|c s IH]; simpl; [done|]. destruct (p c) eqn:E; simpl; [by rewrite E|done]. Qed.

(** A run that satisfies [p] and is followed by nothing or by a
    character that does not is exactly what the loops cut off. *)
Lemma take_while_stop a b :
  forallb p a = true →
  match b with [] => true | c :: _ => negb (p c) end = true →
  take_while p (a ++ b) = a ∧ drop_while p (a ++ b) = b.
Proof.
  intros Ha Hb. induction a as [|c a IH]; simpl in *.
  - destruct b as [|c b]; [done|]. apply negb_true_iff in Hb. simpl. by rewrite Hb.
  - apply andb_true_iff in Ha as [Hc Ha]. rewrite Hc.
    destruct (IH Ha) as [-> ->]. done.
Qed.

Lemma drop_while_stop s :
  match drop_while p s with [] => true | c :: _ => negb (p c) end = true.
Proof. induction s as [|c s IH]; simpl; [done|]. destruct (p c) eqn:E; [done|]. simpl. by rewrite E. Qed.
End TakeDrop.

Lemma strip_prefix_app pre s : strip_prefix pre (pre ++ s) = Some s.
Proof.
  induction pre as [|a pre IH]; simpl; [by destruct s|].
  by rewrite Ascii.eqb_refl.
Qed.

Lemma strip_prefix_Some pre s r : strip_prefix pre s = Some r → s = pre ++ r.
Proof.
  revert s. induction pre as [|a pre IH]; intros s H.
  - destruct s; simpl in H; by simplify_eq.
  - destruct s as [|b s]; simpl in H; [done|].
    destruct (Ascii.eqb_spec a b) as [->|]; [|done].
    simpl. f_equal. by apply IH.
Qed.

Lemma startswith_app pre s : startswith pre (pre ++ s) = true.
Proof. unfold startswith. by rewrite strip_prefix_app. Qed.

Lemma contains_app sub a b : contains sub (a ++ sub ++ b) = true.
Proof.
  induction a as [|c a IH]; simpl.
  - destruct (sub ++ b) eqn:E; simpl; rewrite <- E, startswith_app; done.
  - rewrite IH. apply orb_true_r.
Qed.

Lemma contains_true sub s :
  contains sub s = true → ∃ a b, s = a ++ sub ++ b.
Proof.
  induction s as [|c s IH]; simpl; intros H.
  - rewrite orb_false_r in H. unfold startswith in H.
    destruct (strip_prefix sub []) as [r|] eqn:E; [|done].
    apply strip_prefix_Some in E. by exists [], r.
  - apply orb_true_iff in H as [H|H].
    + unfold startswith in H. destruct (strip_prefix sub (c :: s)) as [r|] eqn:E; [|done].
      apply strip_prefix_Some in E. by exists [], r.
    + destruct (IH H) as (a & b & ->). by exists (c :: a), b.
Qed.

(** ** Lemmas on integers *)

Lemma uint_of_digit c d :
  is_digit c = true →
  ∃ d', uint_of_char c (Some d) = Some d' ∧ d' ≠ Decimal.Nil ∧
        DecimalPos.Unsigned.hd d' = digit_value c ∧ DecimalPos.Unsigned.tl d' = d.
Proof.
  destruct c as [[] [] [] [] [] [] [] []]; vm_compute; intros H;
    try discriminate H; eexists; (split; [reflexivity|]); done.
Qed.

Lemma of_lu_rev_cons d :
  d ≠ Decimal.Nil →
  DecimalPos.Unsigned.of_lu (Decimal.rev d)
  = (DecimalPos.Unsigned.of_lu (Decimal.rev (DecimalPos.Unsigned.tl d))
     + DecimalPos.Unsigned.hd d * 10 ^ DecimalPos.Unsigned.usize (DecimalPos.Unsigned.tl d))%N.
Proof.
  destruct d; [done|..]; intros _; unfold Decimal.rev; simpl Decimal.revapp;
    rewrite DecimalPos.Unsigned.of_lu_revapp; simpl; done.
Qed.

Lemma decimal_value_acc ds acc :
  fold_left (fun acc c => (10 * acc + digit_value c)%N) ds acc
  = (acc * 10 ^ N.of_nat (length ds) + decimal_value ds)%N.
Proof.
  unfold decimal_value. revert acc.
  induction ds as [|c ds IH]; intros acc.
  - simpl. lia.
  - cbn [fold_left length]. rewrite IH, (IH (10 * 0 + digit_value c)%N).
    rewrite Nat2N.inj_succ, N.pow_succ_r'. lia.
Qed.

Lemma uint_of_digits ds :
  forallb is_digit ds = true →
  ∃ d, NilEmpty.uint_of_string (string_of_list_ascii ds) = Some d ∧
       DecimalPos.Unsigned.of_lu (Decimal.rev d) = decimal_value ds ∧
       DecimalPos.Unsigned.usize d = N.of_nat (length ds) ∧
       (ds ≠ [] → d ≠ Decimal.Nil).
Proof.
  induction ds as [|c ds IH]; intros H.
  - by exists Decimal.Nil.
  - simpl in H. apply andb_true_iff in H as [Hc Hds].
    destruct (IH Hds) as (d & Hd & Hv & Hn & _).
    destruct (uint_of_digit c d Hc) as (d' & Hd' & Hnil & Hhd & Htl).
    exists d'. simpl. rewrite Hd. split; [done|]. split; [|split; [|done]].
    + rewrite (of_lu_rev_cons d' Hnil), Htl, Hhd, Hv, Hn.
      unfold decimal_value at 2. cbn [fold_left].
      rewrite decimal_value_acc. lia.
    + destruct d'; [done|..]; simpl in Htl; subst; simpl;
        rewrite Hn, Nat2N.inj_succ; done.
Qed.

(** On a run of digits within the limit [int] returns, and returns the
    positional value. *)
Lemma py_int_digits ds :
  ds ≠ [] → forallb is_digit ds = true →
  length ds ≤ int_max_str_digits →
  py_int ds = Returned (decimal_value ds).
Proof.
  intros Hne H Hlen. destruct (uint_of_digits ds H) as (d & Hd & Hv & _ & Hnil).
  unfold py_int, NilZero.uint_of_string.
  destruct (Nat.ltb_spec int_max_str_digits (length ds)) as [?|_]; [lia|].
  destruct ds as [|c ds]; [done|].
  change (string_of_list_ascii (c :: ds))
    with (String c (string_of_list_ascii ds)) in *.
  rewrite Hd. f_equal. unfold N.of_uint. by rewrite DecimalPos.Unsigned.of_uint_alt.
Qed.

(** Beyond the limit [int] raises. *)
Lemma py_int_long ds :
  int_max_str_digits < length ds → py_int ds = Raised ValueError.
Proof.
  intros H. unfold py_int.
  by destruct (Nat.ltb_spec int_max_str_digits (length ds)) as [_|?]; [|lia].
Qed.

Lemma to_uint_nonnil n : N.to_uint n ≠ Decimal.Nil.
Proof. destruct n; [done|]. apply DecimalPos.Unsigned.to_uint_nonnil. Qed.

(** [str] then [int] gives the number back, within the limit. *)
Lemma py_int_py_str n :
  length (py_str n) ≤ int_max_str_digits → py_int (py_str n) = Returned n.
Proof.
  intros Hlen. unfold py_int.
  destruct (Nat.ltb_spec int_max_str_digits (length (py_str n))) as [?|_]; [lia|].
  unfold py_str. rewrite string_of_list_ascii_of_string.
  rewrite NilZero.usu by apply to_uint_nonnil.
  by rewrite DecimalN.Unsigned.of_to.
Qed.

(** ** Lemmas on the pattern *)

Lemma take_while_app_all p a b :
  forallb p a = true → take_while p (a ++ b) = a ++ take_while p b.
Proof.
  induction a as [|c a IH]; simpl; [done|].
  intros [Hc Ha]%andb_true_iff. rewrite Hc. f_equal. by apply IH.
Qed.

Lemma group_end_stop tail :
  group_end tail = true →
  match tail with [] => true | c :: _ => negb (is_dot c) end = true.
Proof. destruct tail as [|c t]; simpl; [done|]. unfold is_dot. by intros ->. Qed.

Lemma literal_stop s :
  match LITERAL ++ s with [] => true | c :: _ => negb (is_digit c) end = true.
Proof. reflexivity. Qed.

(** The groups of a match are the whole run of digits and the rest of
    the line up to its line feed. *)
Lemma re_match_greedy digits data tail :
  digits ≠ [] → forallb is_digit digits = true →
  data ≠ [] → forallb is_dot data = true →
  group_end tail = true →
  re_match (digits ++ LITERAL ++ data ++ tail) = Some (digits, data).
Proof.
  intros Hd Hds Hr Hrs Ht. unfold re_match. fold LITERAL.
  destruct (take_while_stop is_digit digits (LITERAL ++ data ++ tail) Hds
              (literal_stop (data ++ tail))) as [-> ->].
  rewrite strip_prefix_app.
  destruct (take_while_stop is_dot data tail Hrs (group_end_stop tail Ht)) as [-> _].
  destruct digits; [done|]. by destruct data.
Qed.

Lemma re_match_inv line digits data :
  re_match line = Some (digits, data) →
  ∃ tail, line = digits ++ LITERAL ++ data ++ tail ∧
          digits ≠ [] ∧ forallb is_digit digits = true ∧
          data ≠ [] ∧ forallb is_dot data = true ∧
          group_end tail = true.
Proof.
  unfold re_match. fold LITERAL. intros H.
  pose proof (take_drop_while is_digit line) as Hline.
  pose proof (forallb_take_while is_digit line) as Hdig.
  destruct (take_while is_digit line) as [|d ds] eqn:E1; [done|].
  destruct (strip_prefix LITERAL (drop_while is_digit line)) as [rest|] eqn:E2; [|done].
  apply strip_prefix_Some in E2.
  pose proof (take_drop_while is_dot rest) as Hrest.
  pose proof (forallb_take_while is_dot rest) as Hdot.
  pose proof (drop_while_stop is_dot rest) as Hstop.
  destruct (take_while is_dot rest) as [|r rs] eqn:E3; [done|].
  simplify_eq. exists (drop_while is_dot rest).
  split; [by rewrite Hrest, <- E2, Hline|].
  repeat split; try done.
  destruct (drop_while is_dot rest) as [|c t]; [done|].
  simpl in *. unfold is_dot in Hstop. by rewrite negb_involutive in Hstop.
Qed.

(** No other way of cutting the line can make the pattern match: a
    line that can be cut into digits, the literal and a non-empty run
    without line feed has the greedy match. *)
Lemma re_match_complete digits rest tail :
  digits ≠ [] → forallb is_digit digits = true →
  rest ≠ [] → forallb is_dot rest = true →
  ∃ more, re_match (digits ++ LITERAL ++ rest ++ tail)
          = Some (digits, rest ++ more).
Proof.
  intros Hd Hds Hr Hrs. unfold re_match. fold LITERAL.
  destruct (take_while_stop is_digit digits (LITERAL ++ rest ++ tail) Hds
              (literal_stop (rest ++ tail))) as [-> ->].
  rewrite strip_prefix_app, take_while_app_all by done.
  exists (take_while is_dot tail).
  destruct digits; [done|]. by destruct rest.
Qed.

(** The pattern matches exactly the lines that can be cut, in any way,
    into digits, the literal and a non-empty run without line feed. *)
Lemma re_match_is_Some line :
  is_Some (re_match line) ↔
  ∃ digits rest tail,
    line = digits ++ LITERAL ++ rest ++ tail ∧
    digits ≠ [] ∧ forallb is_digit digits = true ∧
    rest ≠ [] ∧ forallb is_dot rest = true.
Proof.
  split.
  - intros [[digits data] H].
    destruct (re_match_inv _ _ _ H) as (tail & ? & ? & ? & ? & ? & _).
    by exists digits, data, tail.
  - intros (digits & rest & tail & -> & Hd & Hds & Hr & Hrs).
    destruct (re_match_complete digits rest tail Hd Hds Hr Hrs) as [more ->].
    by eexists.
Qed.

Lemma matches_anchored_re_match line :
  matches_anchored line → is_Some (re_match line).
Proof.
  intros (digits & data & tail & ? & ? & ? & ? & ? & _).
  apply re_match_is_Some. by exists digits, data, tail.
Qed.

Lemma literal_marker : LITERAL = SPACE :: MARKER ++ [SPACE].
Proof. reflexivity. Qed.

Lemma contains_marker a b : contains MARKER (a ++ LITERAL ++ b) = true.
Proof.
  rewrite literal_marker.
  replace (a ++ (SPACE :: MARKER ++ [SPACE]) ++ b)
    with ((a ++ [SPACE]) ++ MARKER ++ (SPACE :: b)).
  - apply contains_app.
  - by rewrite <- !app_assoc.
Qed.

(** ** Lemmas on the classifier *)

(** What [parse_log_line] answers on a line the pattern matches, when
    the integer is within the limit of [int]. *)
Lemma parse_matched digits data tail :
  digits ≠ [] → forallb is_digit digits = true →
  length digits ≤ int_max_str_digits →
  data ≠ [] → forallb is_dot data = true →
  group_end tail = true →
  parse_log_line (digits ++ LITERAL ++ data ++ tail)
  = Returned
      (if length (split COMMA data) =? 11
       then Some (worker, decimal_value digits, data)
       else if length (split COMMA data) =? 24
       then Some (controller, decimal_value digits, data)
       else None).
Proof.
  intros Hd Hds Hlen Hr Hrs Ht. unfold parse_log_line. fold MARKER.
  rewrite contains_marker, re_match_greedy by done.
  rewrite py_int_digits by done. simpl.
  repeat case_match; done.
Qed.

(** And when it is not: [int] raises before the fields are counted. *)
Lemma parse_matched_long digits data tail :
  digits ≠ [] → forallb is_digit digits = true →
  int_max_str_digits < length digits →
  data ≠ [] → forallb is_dot data = true →
  group_end tail = true →
  parse_log_line (digits ++ LITERAL ++ data ++ tail) = Raised ValueError.
Proof.
  intros Hd Hds Hlen Hr Hrs Ht. unfold parse_log_line. fold MARKER.
  rewrite contains_marker, re_match_greedy by done.
  by rewrite py_int_long.
Qed.

Lemma parse_unmatched line :
  re_match line = None → parse_log_line line = Returned None.
Proof. intros H. unfold parse_log_line. rewrite H. by case_match. Qed.

(** The classifier raises on the lines with a long integer and on no
    other. *)
Lemma parse_log_line_outcome line :
  (long_integer line = true ∧ parse_log_line line = Raised ValueError) ∨
  (long_integer line = false ∧ ∃ r, parse_log_line line = Returned r).
Proof.
  unfold long_integer.
  destruct (re_match line) as [[digits data]|] eqn:E.
  - destruct (re_match_inv _ _ _ E) as (tail & -> & ? & ? & ? & ? & ?).
    destruct (Nat.ltb_spec int_max_str_digits (length digits)).
    + left. split; [done|]. by apply parse_matched_long.
    + right. split; [done|]. rewrite parse_matched by done. eauto.
  - right. split; [done|]. rewrite parse_unmatched by done. eauto.
Qed.

Lemma parse_log_line_inv_bound line key timestamp data :
  parse_log_line line = Returned (Some (key, timestamp, data)) →
  ∃ digits tail,
    line = digits ++ LITERAL ++ data ++ tail ∧
    digits ≠ [] ∧ forallb is_digit digits = true ∧
    length digits ≤ int_max_str_digits ∧
    data ≠ [] ∧ forallb is_dot data = true ∧
    group_end tail = true ∧
    timestamp = decimal_value digits ∧
    length (split COMMA data) = match key with worker => 11 | controller => 24 end.
Proof.
  intros H. destruct (re_match line) as [[digits data']|] eqn:E.
  - destruct (re_match_inv _ _ _ E) as (tail & -> & ? & ? & ? & ? & ?).
    destruct (Nat.ltb_spec int_max_str_digits (length digits)).
    { rewrite parse_matched_long in H by done. done. }
    rewrite parse_matched in H by done.
    exists digits, tail.
    destruct (length (split COMMA data') =? 11) eqn:E11.
    { simplify_eq. apply Nat.eqb_eq in E11. done. }
    destruct (length (split COMMA data') =? 24) eqn:E24; [|done].
    simplify_eq. apply Nat.eqb_eq in E24. done.
  - rewrite parse_unmatched in H by done. done.
Qed.

Lemma parse_log_line_inv line key timestamp data :
  parse_log_line line = Returned (Some (key, timestamp, data)) →
  ∃ digits tail,
    line = digits ++ LITERAL ++ data ++ tail ∧
    digits ≠ [] ∧ forallb is_digit digits = true ∧
    data ≠ [] ∧ forallb is_dot data = true ∧
    group_end tail = true ∧
    timestamp = decimal_value digits ∧
    length (split COMMA data) = match key with worker => 11 | controller => 24 end.
Proof.
  intros (digits & tail & ? & ? & ? & _ & ? & ? & ? & ? & ?)%parse_log_line_inv_bound.
  by exists digits, tail.
Qed.

(** The digits in front of a line are fixed by the line. *)
Lemma digits_unique digits digits' rest rest' :
  forallb is_digit digits = true → forallb is_digit digits' = true →
  digits ++ LITERAL ++ rest = digits' ++ LITERAL ++ rest' →
  digits = digits' ∧ rest = rest'.
Proof.
  intros Hd Hd' H.
  destruct (take_while_stop is_digit digits (LITERAL ++ rest) Hd (literal_stop rest))
    as [H1 _].
  destruct (take_while_stop is_digit digits' (LITERAL ++ rest') Hd' (literal_stop rest'))
    as [H2 _].
  rewrite H, H2 in H1. subst digits'. split; [done|].
  by apply app_inv_head in H as ?%app_inv_head.
Qed.

(** ** Lemmas on [split] and [join] *)

Lemma split_nonempty sep s : split sep s ≠ [].
Proof.
  destruct s as [|c s]; simpl; [done|].
  destruct (Ascii.eqb c sep); [done|]. by destruct (split sep s).
Qed.

Lemma join_cons sep item items :
  items ≠ [] → join sep (item :: items) = item ++ sep :: join sep items.
Proof. by destruct items. Qed.

Lemma join_split sep s : join sep (split sep s) = s.
Proof.
  induction s as [|c s IH]; simpl; [done|].
  pose proof (split_nonempty sep s) as Hne.
  destruct (Ascii.eqb_spec c sep) as [->|Hc].
  - rewrite join_cons by done. simpl. by rewrite IH.
  - destruct (split sep s) as [|item items]; [done|].
    destruct items as [|item' items].
    + simpl in *. by rewrite IH.
    + rewrite join_cons by done. rewrite join_cons in IH by done.
      by rewrite <- IH.
Qed.

Lemma length_split sep s : length (split sep s) = S (count_char sep s).
Proof.
  unfold count_char. induction s as [|c s IH]; simpl; [done|].
  pose proof (split_nonempty sep s) as Hne.
  rewrite filter_cons. destruct (Ascii.eqb c sep) eqn:E.
  - rewrite decide_True by done. simpl. by rewrite IH.
  - rewrite decide_False by (by intros ?). rewrite <- IH.
    by destruct (split sep s).
Qed.

Lemma count_char_app c a b :
  count_char c (a ++ b) = count_char c a + count_char c b.
Proof. unfold count_char. by rewrite filter_app, length_app. Qed.

(** ** Lemmas on lines *)

Lemma file_line_tail a b :
  file_line (a ++ NEWLINE :: b) = true → b = [].
Proof.
  unfold file_line. destruct b as [|c b]; [done|]. intros H.
  rewrite removelast_app in H by done.
  rewrite forallb_app in H. apply andb_true_iff in H as [_ H].
  simpl in H. done.
Qed.

(** Reading a file only ever yields such lines. *)
Lemma iter_lines_file_line s :
  Forall (fun line => file_line line = true) (iter_lines s).
Proof.
  induction s as [|c s IH]; simpl; [constructor|].
  destruct (Ascii.eqb c NEWLINE) eqn:E.
  - by constructor.
  - destruct (iter_lines s) as [|l ls]; [by repeat constructor|].
    inversion IH as [|? ? Hl Hls]; subst. constructor; [|done].
    unfold file_line in *. destruct l as [|c' l]; [done|].
    change (removelast (c :: c' :: l)) with (c :: removelast (c' :: l)).
    cbn [forallb]. rewrite Hl. unfold is_dot. by rewrite E.
Qed.

Lemma input_lines_file_line content line :
  line ∈ input_lines content → file_line line = true.
Proof.
  intros H. pose proof (iter_lines_file_line (universal_newlines content)) as Hall.
  rewrite Forall_forall in Hall. by apply Hall.
Qed.

Lemma process_line_none logs line :
  parse_log_line line = Returned None → process_line logs line = Returned logs.
Proof. intros H. unfold process_line. destruct logs. by rewrite H. Qed.

(** ** The classifier: C1, C2, C3 *)

(** C1, as amended.  A line that matches the pattern, that is, a
    non-empty run of digits, the literal [ instruments: ] and a non-empty
    payload that runs to the end of the line, whose integer has no more
    digits than [int] converts and whose payload splits on commas into
    exactly 11 items, is classified as worker; the timestamp returned is
    the integer the digits denote, and the payload returned is the one
    that splits into those 11 fields, in their order. *)
Theorem C1_worker_line (digits data tail : text) (fields : list text) :
  digits ≠ [] → forallb is_digit digits = true →
  length digits ≤ int_max_str_digits →
  data ≠ [] → forallb is_dot data = true →
  group_end tail = true →
  split COMMA data = fields → length fields = 11 →
  ∃ payload,
    parse_log_line (digits ++ LITERAL ++ data ++ tail)
    = Returned (Some (worker, decimal_value digits, payload)) ∧
    py_int digits = Returned (decimal_value digits) ∧
    split COMMA payload = fields ∧
    join COMMA fields = payload.
Proof.
  intros Hd Hds Hlim Hr Hrs Ht Hf Hlen. exists data.
  rewrite parse_matched by done. rewrite Hf, Hlen. simpl.
  split; [done|]. split; [by apply py_int_digits|].
  split; [done|]. by rewrite <- Hf, join_split.
Qed.

Lemma C1_worker_line_witness :
  ∃ payload,
    parse_log_line (txt "100 instruments: 1,2,3,4,5,6,7,8,9,10,11" ++ [NEWLINE])
    = Returned (Some (worker, 100%N, payload)) ∧
    py_int (txt "100") = Returned 100%N ∧
    split COMMA payload
    = map txt ["1"; "2"; "3"; "4"; "5"; "6"; "7"; "8"; "9"; "10"; "11"] ∧
    join COMMA (map txt ["1"; "2"; "3"; "4"; "5"; "6"; "7"; "8"; "9"; "10"; "11"])
    = payload.
Proof.
  apply (C1_worker_line (txt "100") (txt "1,2,3,4,5,6,7,8,9,10,11") [NEWLINE]
           (map txt ["1"; "2"; "3"; "4"; "5"; "6"; "7"; "8"; "9"; "10"; "11"]));
    first [reflexivity | discriminate | within_limit].
Defined.

(** C1 as it was stated fails on a line with 4301 digits in front: the
    pattern matches, the payload has 11 items, and the classifier raises
    instead of returning. *)
Lemma C1_worker_line_counterexample :
  re_match long_worker_line = Some (long_digits, txt "1,2,3,4,5,6,7,8,9,10,11") ∧
  length (split COMMA (txt "1,2,3,4,5,6,7,8,9,10,11")) = 11 ∧
  parse_log_line long_worker_line = Raised ValueError.
Proof. by vm_compute. Qed.

(** C2, as amended.  A line that matches the pattern, with an integer of
    no more digits than [int] converts, and whose payload splits into
    exactly 24 items is classified as controller; with any number of
    items other than 11 and 24 the classifier returns no match. *)
Theorem C2_controller_or_none (digits data tail : text) :
  digits ≠ [] → forallb is_digit digits = true →
  length digits ≤ int_max_str_digits →
  data ≠ [] → forallb is_dot data = true →
  group_end tail = true →
  (length (split COMMA data) = 24 →
   parse_log_line (digits ++ LITERAL ++ data ++ tail)
   = Returned (Some (controller, decimal_value digits, data))) ∧
  (length (split COMMA data) ≠ 11 → length (split COMMA data) ≠ 24 →
   parse_log_line (digits ++ LITERAL ++ data ++ tail) = Returned None).
Proof.
  intros Hd Hds Hlim Hr Hrs Ht. rewrite parse_matched by done. split.
  - by intros ->.
  - intros H11%Nat.eqb_neq H24%Nat.eqb_neq. by rewrite H11, H24.
Qed.

Lemma C2_controller_or_none_witness :
  parse_log_line
    (txt "5 instruments: 1,2,3,4,5,6,7,8,9,10,11,12,13,14,15,16,17,18,19,20,21,22,23,24")
  = Returned (Some (controller, 5%N,
      txt "1,2,3,4,5,6,7,8,9,10,11,12,13,14,15,16,17,18,19,20,21,22,23,24")) ∧
  parse_log_line (txt "5 instruments: 1,2,3,4,5,6,7,8,9,10,11,12") = Returned None.
Proof.
  split.
  - apply (proj1 (C2_controller_or_none (txt "5")
      (txt "1,2,3,4,5,6,7,8,9,10,11,12,13,14,15,16,17,18,19,20,21,22,23,24") []
      ltac:(discriminate) eq_refl ltac:(within_limit) ltac:(discriminate) eq_refl eq_refl)).
    reflexivity.
  - apply (proj2 (C2_controller_or_none (txt "5") (txt "1,2,3,4,5,6,7,8,9,10,11,12") []
      ltac:(discriminate) eq_refl ltac:(within_limit) ltac:(discriminate) eq_refl eq_refl));
      vm_compute; discriminate.
Defined.

(** C2 as it was stated fails on lines with 4301 digits in front: with
    24 items, and with 5, the classifier raises instead of returning. *)
Lemma C2_controller_or_none_counterexample :
  re_match long_controller_line
  = Some (long_digits,
          txt "1,2,3,4,5,6,7,8,9,10,11,12,13,14,15,16,17,18,19,20,21,22,23,24") ∧
  parse_log_line long_controller_line = Raised ValueError ∧
  re_match long_other_line = Some (long_digits, txt "1,2,3,4,5") ∧
  parse_log_line long_other_line = Raised ValueError.
Proof. by vm_compute. Qed.

(** C3. A line of the input file that lacks the marker [instruments:],
    or that the anchored pattern does not match (a malformed integer in
    front, for one), makes the classifier return no match, without an
    exception; the loop then leaves both lists of rows as they are. *)
Theorem C3_unmatched_dropped (line : text) :
  file_line line = true →
  contains MARKER line = false ∨ ¬ matches_anchored line →
  parse_log_line line = Returned None ∧
  (∀ logs, process_line logs line = Returned logs) ∧
  (∀ key, rows_of key [line] = []).
Proof.
  intros Hline H.
  assert (parse_log_line line = Returned None) as Hp.
  { destruct H as [H|H].
    - unfold parse_log_line. fold MARKER. by rewrite H.
    - destruct (re_match line) as [[digits data]|] eqn:E;
        [|by apply parse_unmatched].
      destruct (re_match_inv _ _ _ E) as (tail & -> & ? & ? & ? & ? & Ht).
      exfalso. apply H. exists digits, data, tail. repeat split; try done.
      destruct tail as [|c t]; [by left|right].
      simpl in Ht. apply Ascii.eqb_eq in Ht as ->. f_equal.
      apply (file_line_tail (digits ++ LITERAL ++ data)).
      by rewrite <- !app_assoc. }
  split; [done|]. split.
  - intros logs. by apply process_line_none.
  - intros key. simpl. by rewrite Hp.
Qed.

Lemma C3_unmatched_dropped_witness :
  parse_log_line (txt "wifi: connected" ++ [NEWLINE]) = Returned None ∧
  parse_log_line (txt "12a instruments: 1,2,3,4,5,6,7,8,9,10,11" ++ [NEWLINE])
  = Returned None.
Proof.
  split.
  - apply (C3_unmatched_dropped (txt "wifi: connected" ++ [NEWLINE]) eq_refl
             (or_introl eq_refl)).
  - apply (C3_unmatched_dropped
             (txt "12a instruments: 1,2,3,4,5,6,7,8,9,10,11" ++ [NEWLINE]) eq_refl).
    right. intros [r Hr]%matches_anchored_re_match.
    vm_compute in Hr. discriminate Hr.
Defined.

(** ** Lemmas on escaping and stripping *)

(** Replacing the double quote by backslash and double quote, as
    [process_log] does, is what [escape_quotes] says. *)
Lemma replace_quotes s :
  replace [DQUOTE] [BACKSLASH; DQUOTE] s = escape_quotes s.
Proof.
  unfold replace, escape_quotes. induction s as [|c s IH]; [done|].
  cbn [replace_from flat_map]. unfold startswith. cbn [strip_prefix].
  rewrite (Ascii.eqb_sym DQUOTE c).
  destruct (Ascii.eqb c DQUOTE); cbn [length Nat.sub]; by rewrite IH.
Qed.

Lemma escape_quotes_app a b :
  escape_quotes (a ++ b) = escape_quotes a ++ escape_quotes b.
Proof. apply flat_map_app. Qed.

Lemma split_escape_quotes s :
  split COMMA (escape_quotes s) = map escape_quotes (split COMMA s).
Proof.
  induction s as [|c s IH]; [done|].
  pose proof (split_nonempty COMMA s) as Hne.
  change (escape_quotes (c :: s))
    with ((if Ascii.eqb c DQUOTE then [BACKSLASH; DQUOTE] else [c]) ++ escape_quotes s).
  destruct (Ascii.eqb_spec c DQUOTE) as [->|Hq].
  - simpl. rewrite IH. destruct (split COMMA s); [done|]. reflexivity.
  - cbn [app split]. rewrite IH.
    destruct (Ascii.eqb c COMMA) eqn:Ec; [done|].
    destruct (split COMMA s) as [|item items]; [done|].
    cbn [map]. f_equal. unfold escape_quotes. cbn [flat_map].
    apply Ascii.eqb_neq in Hq. by rewrite Hq.
Qed.

Lemma forallb_escape_quotes p s :
  p BACKSLASH = true → forallb p s = true → forallb p (escape_quotes s) = true.
Proof.
  intros Hb. induction s as [|c s IH]; [done|].
  cbn [forallb]. intros [Hc Hs]%andb_true_iff.
  change (escape_quotes (c :: s))
    with ((if Ascii.eqb c DQUOTE then [BACKSLASH; DQUOTE] else [c]) ++ escape_quotes s).
  rewrite forallb_app, (IH Hs), andb_true_r.
  destruct (Ascii.eqb_spec c DQUOTE) as [->|]; simpl; by rewrite ?Hb, Hc.
Qed.

Section DropWhile.
Variable p : ascii → bool.

Lemma drop_while_all s : forallb p s = true → drop_while p s = [].
Proof.
  induction s as [|c s IH]; simpl; [done|].
  intros [-> Hs]%andb_true_iff. by apply IH.
Qed.

Lemma drop_while_app a b :
  drop_while p (a ++ b)
  = match drop_while p a with [] => drop_while p b | r => r ++ b end.
Proof.
  induction a as [|c a IH]; simpl; [by destruct (drop_while p b)|].
  by destruct (p c).
Qed.

Lemma drop_while_sublist s : ∃ l, s = l ++ drop_while p s ∧ forallb p l = true.
Proof.
  exists (take_while p s). split; [by rewrite take_drop_while|].
  apply forallb_take_while.
Qed.
End DropWhile.

Lemma rstrip_app_blanks s blanks :
  forallb is_space blanks = true → rstrip (s ++ blanks) = rstrip s.
Proof.
  intros H. unfold rstrip. rewrite rev_app_distr, drop_while_app.
  rewrite drop_while_all; [done|].
  rewrite forallb_forall in *. intros c Hc. apply H. by apply in_rev.
Qed.

(** Blanks at the end of a string do not survive [strip]. *)
Lemma strip_app_blanks s blanks :
  forallb is_space blanks = true → strip (s ++ blanks) = strip s.
Proof.
  intros H. unfold strip, lstrip. rewrite drop_while_app.
  destruct (drop_while is_space s) as [|c r] eqn:E.
  - rewrite drop_while_all by done. done.
  - by apply rstrip_app_blanks.
Qed.

(** [strip] cuts a run of blanks off each end and nothing else. *)
Lemma strip_decompose s :
  ∃ l r, s = l ++ strip s ++ r ∧
         forallb is_space l = true ∧ forallb is_space r = true.
Proof.
  destruct (drop_while_sublist is_space s) as (l & Hl & Hlb).
  destruct (drop_while_sublist is_space (rev (lstrip s))) as (r & Hr & Hrb).
  exists l, (rev r). split; [|split; [done|]].
  - unfold strip, rstrip. rewrite <- rev_app_distr, <- Hr, rev_involutive. done.
  - rewrite forallb_forall in *. intros c Hc. apply Hrb. by apply in_rev.
Qed.

Lemma strip_head s :
  match strip s with [] => true | c :: _ => negb (is_space c) end = true.
Proof.
  unfold strip, rstrip, lstrip.
  pose proof (drop_while_stop is_space s) as H.
  destruct (drop_while is_space s) as [|c r]; [done|].
  apply negb_true_iff in H.
  change (rev (c :: r)) with (rev r ++ [c]). rewrite drop_while_app.
  destruct (drop_while is_space (rev r)) as [|c' r'] eqn:E.
  - simpl. rewrite H. simpl. by rewrite H.
  - rewrite rev_app_distr. simpl. by rewrite H.
Qed.

Lemma strip_last s :
  match rev (strip s) with [] => true | c :: _ => negb (is_space c) end = true.
Proof.
  unfold strip, rstrip. rewrite rev_involutive. apply drop_while_stop.
Qed.

Lemma strip_id s :
  match s with [] => true | c :: _ => negb (is_space c) end = true →
  match rev s with [] => true | c :: _ => negb (is_space c) end = true →
  strip s = s.
Proof.
  intros Hh Hl. unfold strip, rstrip, lstrip.
  assert (drop_while is_space s = s) as ->.
  { destruct s as [|c r]; [done|]. simpl. apply negb_true_iff in Hh. by rewrite Hh. }
  assert (drop_while is_space (rev s) = rev s) as ->.
  { destruct (rev s) as [|c r]; [done|]. simpl. apply negb_true_iff in Hl. by rewrite Hl. }
  apply rev_involutive.
Qed.

Lemma count_char_blanks c s :
  is_space c = false → forallb is_space s = true → count_char c s = 0.
Proof.
  intros Hc. unfold count_char. induction s as [|x s IH]; [done|].
  cbn [forallb]. intros [Hx Hs]%andb_true_iff. rewrite filter_cons.
  destruct (Ascii.eqb_spec x c) as [->|]; [congruence|].
  rewrite decide_False by (by intros ?). by apply IH.
Qed.

Lemma count_char_strip c s :
  is_space c = false → count_char c (strip s) = count_char c s.
Proof.
  intros Hc. destruct (strip_decompose s) as (l & r & Hs & Hl & Hr).
  rewrite Hs at 2. rewrite !count_char_app.
  rewrite (count_char_blanks c l), (count_char_blanks c r) by done. lia.
Qed.

Lemma escape_quotes_id s : count_char DQUOTE s = 0 → escape_quotes s = s.
Proof.
  unfold count_char, escape_quotes. induction s as [|c s IH]; [done|].
  rewrite filter_cons. cbn [flat_map].
  destruct (Ascii.eqb c DQUOTE) eqn:E.
  - rewrite decide_True by done. done.
  - rewrite decide_False by (by intros ?). intros H. simpl. f_equal. by apply IH.
Qed.

(** The row of a line that was classified. *)
Lemma process_line_some logs line key timestamp data :
  parse_log_line line = Returned (Some (key, timestamp, data)) →
  process_line logs line
  = Returned match key with
             | worker => (logs.1 ++ [log_entry timestamp data], logs.2)
             | controller => (logs.1, logs.2 ++ [log_entry timestamp data])
             end.
Proof. intros H. unfold process_line. destruct logs. rewrite H. by destruct key. Qed.

Lemma log_entry_eq timestamp data :
  log_entry timestamp data
  = py_str timestamp ++ [COMMA; SPACE] ++ strip (escape_quotes data).
Proof. unfold log_entry. by rewrite replace_quotes. Qed.

(** Escaping and stripping keep the number of comma-separated items. *)
Lemma length_split_payload data :
  length (split COMMA (strip (escape_quotes data))) = length (split COMMA data).
Proof.
  rewrite length_split, count_char_strip by done.
  rewrite <- length_split, split_escape_quotes. apply length_map.
Qed.

(** ** The rows: C4, C5 *)

(** What [strip] leaves of an escaped payload, told without [strip]:
    the payload between a run of blanks at each end, with no blank at its
    own ends. *)
Lemma payload_decompose data :
  ∃ l r,
    escape_quotes data = l ++ strip (escape_quotes data) ++ r ∧
    forallb is_space l = true ∧ forallb is_space r = true ∧
    match strip (escape_quotes data) with
    | [] => true | c :: _ => negb (is_space c) end = true ∧
    match rev (strip (escape_quotes data)) with
    | [] => true | c :: _ => negb (is_space c) end = true.
Proof.
  destruct (strip_decompose (escape_quotes data)) as (l & r & H & Hl & Hr).
  exists l, r. repeat split; try done; [apply strip_head|apply strip_last].
Qed.

(** C4, as amended.  The line [100 instruments: 1,2,3,4,5,6,7,8,9,10,11]
    gives the worker row [100, 1,2,3,4,5,6,7,8,9,10,11].  In general the
    row appended for a classified line is the timestamp in decimal, a
    comma, one blank, and then the payload with every double quote escaped
    and the blanks at its two ends taken off; what follows the blank is
    not a blank and has the 11 or 24 comma-separated items of the line.
    When the payload holds no double quote and no blank at either end,
    this is the comma-joined fields the line was classified by. *)
Theorem C4_row_format :
  process_lines ([], []) [txt "100 instruments: 1,2,3,4,5,6,7,8,9,10,11"]
  = Returned ([txt "100, 1,2,3,4,5,6,7,8,9,10,11"], []) ∧
  ∀ line key timestamp data logs,
    parse_log_line line = Returned (Some (key, timestamp, data)) →
    ∃ payload l r,
      process_line logs line
      = Returned
          (let row := py_str timestamp ++ [COMMA; SPACE] ++ payload in
           match key with
           | worker => (logs.1 ++ [row], logs.2)
           | controller => (logs.1, logs.2 ++ [row])
           end) ∧
      escape_quotes data = l ++ payload ++ r ∧
      forallb is_space l = true ∧ forallb is_space r = true ∧
      (∃ c rest, payload = c :: rest ∧ is_space c = false) ∧
      match rev payload with [] => true | c :: _ => negb (is_space c) end = true ∧
      length (split COMMA payload)
      = match key with worker => 11 | controller => 24 end ∧
      (count_char DQUOTE data = 0 →
       match data with [] => true | c :: _ => negb (is_space c) end = true →
       match rev data with [] => true | c :: _ => negb (is_space c) end = true →
       payload = join COMMA (split COMMA data)).
Proof.
  split; [by vm_compute|].
  intros line key timestamp data logs H.
  destruct (payload_decompose data) as (l & r & Hdec & Hl & Hr & Hhead & Hlast).
  exists (strip (escape_quotes data)), l, r.
  destruct (parse_log_line_inv _ _ _ _ H) as (digits & tail & _ & _ & _ & _ & _ & _ & _ & Hlen).
  pose proof (length_split_payload data) as Hn. rewrite Hlen in Hn.
  split; [by rewrite (process_line_some _ _ _ _ _ H), log_entry_eq|].
  split; [done|]. split; [done|]. split; [done|]. split; [|split; [done|split; [done|]]].
  - destruct (strip (escape_quotes data)) as [|c rest]; [by destruct key|].
    exists c, rest. by apply negb_true_iff in Hhead.
  - intros Hq Hh Ht. by rewrite escape_quotes_id, strip_id, join_split.
Qed.

Lemma C4_row_format_witness :
  ∃ payload,
    length (split COMMA payload) = 11 ∧
    process_line ([], []) (txt "100 instruments: 1,2,3,4,5,6,7,8,9,10,11" ++ [NEWLINE])
    = Returned ([py_str 100 ++ [COMMA; SPACE] ++ payload], []).
Proof.
  destruct (proj2 C4_row_format
              (txt "100 instruments: 1,2,3,4,5,6,7,8,9,10,11" ++ [NEWLINE])
              worker 100%N (txt "1,2,3,4,5,6,7,8,9,10,11") ([], []) eq_refl)
    as (payload & l & r & Hrow & _ & _ & _ & _ & _ & Hlen & _).
  exists payload. split; [exact Hlen | exact Hrow].
Defined.

(** C4 as it was stated, with the fields the line was classified by,
    fails on a line with two blanks behind the colon: the first field
    begins with a blank, and the row is not the timestamp, a comma, a blank
    and these fields joined by commas.  The same holds of a field with a
    double quote. *)
Lemma C4_row_format_counterexample :
  parse_log_line (txt "100 instruments:  1,2,3,4,5,6,7,8,9,10,11")
  = Returned (Some (worker, 100%N, txt " 1,2,3,4,5,6,7,8,9,10,11")) ∧
  process_line ([], []) (txt "100 instruments:  1,2,3,4,5,6,7,8,9,10,11")
  = Returned ([txt "100, 1,2,3,4,5,6,7,8,9,10,11"], []) ∧
  txt "100, 1,2,3,4,5,6,7,8,9,10,11"
  ≠ py_str 100 ++ [COMMA; SPACE]
    ++ join COMMA (split COMMA (txt " 1,2,3,4,5,6,7,8,9,10,11")).
Proof. split; [by vm_compute|]. split; [by vm_compute|]. by vm_compute. Qed.

(** C5. In the row of a classified line every double quote of the
    payload has one backslash put in front of it and no other character
    is touched: a field of the three characters a, double quote, b comes
    out as a, backslash, double quote, b.  Commas are left as
    they are, so the fields of the escaped payload are the escaped fields,
    and a comma between quotes still separates two fields. *)
Theorem C5_quote_escaping :
  process_lines ([], [])
    [txt "7 instruments: a" ++ [DQUOTE] ++ txt "b,2,3,4,5,6,7,8,9,10,11"]
  = Returned ([txt "7, a" ++ [BACKSLASH; DQUOTE] ++ txt "b,2,3,4,5,6,7,8,9,10,11"], []) ∧
  process_lines ([], [])
    [txt "7 instruments: " ++ [DQUOTE] ++ txt "a,b" ++ [DQUOTE] ++ txt ",3,4,5,6,7,8,9,10,11"]
  = Returned ([txt "7, " ++ [BACKSLASH; DQUOTE] ++ txt "a,b" ++ [BACKSLASH; DQUOTE]
               ++ txt ",3,4,5,6,7,8,9,10,11"], []) ∧
  ∀ line key timestamp data logs,
    parse_log_line line = Returned (Some (key, timestamp, data)) →
    process_line logs line
    = Returned
        (let row := py_str timestamp ++ [COMMA; SPACE] ++ strip (escape_quotes data) in
         match key with
         | worker => (logs.1 ++ [row], logs.2)
         | controller => (logs.1, logs.2 ++ [row])
         end) ∧
    split COMMA (escape_quotes data) = map escape_quotes (split COMMA data) ∧
    (∀ a b, data = a ++ DQUOTE :: b →
            escape_quotes data
            = escape_quotes a ++ BACKSLASH :: DQUOTE :: escape_quotes b) ∧
    (count_char DQUOTE data = 0 → escape_quotes data = data).
Proof.
  split; [by vm_compute|]. split; [by vm_compute|].
  intros line key timestamp data logs H.
  split; [by rewrite (process_line_some _ _ _ _ _ H), log_entry_eq|].
  split; [apply split_escape_quotes|]. split; [|apply escape_quotes_id].
  intros a b ->. by rewrite escape_quotes_app.
Qed.

Lemma C5_quote_escaping_witness :
  process_line ([], []) (txt "7 instruments: a" ++ [DQUOTE] ++ txt "b,2,3,4,5,6,7,8,9,10,11")
  = Returned
      ([py_str 7 ++ [COMMA; SPACE]
        ++ strip (escape_quotes (txt "a" ++ [DQUOTE] ++ txt "b,2,3,4,5,6,7,8,9,10,11"))],
       []).
Proof.
  exact (proj1 (proj2 (proj2 C5_quote_escaping)
    (txt "7 instruments: a" ++ [DQUOTE] ++ txt "b,2,3,4,5,6,7,8,9,10,11")
    worker 7%N (txt "a" ++ [DQUOTE] ++ txt "b,2,3,4,5,6,7,8,9,10,11") ([], []) eq_refl)).
Defined.

(** ** Blanks and leading zeros: C9, C10 *)

Lemma split_nosep sep s : count_char sep s = 0 → split sep s = [s].
Proof.
  unfold count_char. induction s as [|c s IH]; [done|].
  rewrite filter_cons. cbn [split]. destruct (Ascii.eqb c sep) eqn:E.
  - rewrite decide_True by done. done.
  - rewrite decide_False by (by intros ?). intros H. by rewrite (IH H).
Qed.

(** Text without separator appended to a string goes into its last item. *)
Lemma split_app_nosep sep a b :
  count_char sep b = 0 →
  split sep (a ++ b)
  = removelast (split sep a) ++ [List.last (split sep a) [] ++ b].
Proof.
  intros Hb. induction a as [|c a IH].
  - simpl. by apply split_nosep.
  - pose proof (split_nonempty sep a) as Hne.
    cbn [app split]. rewrite IH. destruct (Ascii.eqb c sep).
    + destruct (split sep a) as [|item items]; [done|]. reflexivity.
    + destruct (split sep a) as [|item items]; [done|].
      destruct items as [|item' items]; reflexivity.
Qed.

Lemma forallb_impl (p q : ascii → bool) s :
  (∀ c, p c = true → q c = true) → forallb p s = true → forallb q s = true.
Proof.
  intros Hpq. induction s as [|c s IH]; [done|]. cbn [forallb].
  intros [Hc Hs]%andb_true_iff. by rewrite (Hpq c Hc), (IH Hs).
Qed.

Lemma parse_matched_key digits data tail key :
  digits ≠ [] → forallb is_digit digits = true →
  length digits ≤ int_max_str_digits →
  data ≠ [] → forallb is_dot data = true →
  group_end tail = true →
  length (split COMMA data) = match key with worker => 11 | controller => 24 end →
  parse_log_line (digits ++ LITERAL ++ data ++ tail)
  = Returned (Some (key, decimal_value digits, data)).
Proof.
  intros Hd Hds Hlim Hr Hrs Ht Hlen. rewrite parse_matched by done.
  rewrite Hlen. by destruct key.
Qed.

Lemma log_entry_blanks_after timestamp data blanks :
  forallb is_space blanks = true →
  log_entry timestamp (data ++ blanks) = log_entry timestamp data.
Proof.
  intros Hb. rewrite !log_entry_eq, escape_quotes_app.
  rewrite (escape_quotes_id blanks) by (by apply count_char_blanks).
  by rewrite strip_app_blanks.
Qed.

(** C9.  Two lines that differ in three blanks behind the last field
    give the same row, without the blanks.  In general, for a line the
    classifier accepts, the row appended is the timestamp, a comma, a blank
    and the escaped payload without the blanks at its two ends; and the
    same line with blanks put behind its last field has these blanks in
    its last field when the fields are counted, is classified as before,
    and gets the same row. *)
Theorem C9_blanks_stripped :
  process_lines ([], [])
    [txt "3 instruments: 1,2,3,4,5,6,7,8,9,10,11   " ++ [NEWLINE];
     txt "3 instruments: 1,2,3,4,5,6,7,8,9,10,11" ++ [NEWLINE]]
  = Returned ([txt "3, 1,2,3,4,5,6,7,8,9,10,11"; txt "3, 1,2,3,4,5,6,7,8,9,10,11"], []) ∧
  ∀ line key timestamp data,
    parse_log_line line = Returned (Some (key, timestamp, data)) →
    ∃ digits tail payload l r,
      line = digits ++ LITERAL ++ data ++ tail ∧
      (∀ logs,
         process_line logs line
         = Returned
             (let row := py_str timestamp ++ [COMMA; SPACE] ++ payload in
              match key with
              | worker => (logs.1 ++ [row], logs.2)
              | controller => (logs.1, logs.2 ++ [row])
              end)) ∧
      escape_quotes data = l ++ payload ++ r ∧
      forallb is_space l = true ∧ forallb is_space r = true ∧
      match payload with [] => true | c :: _ => negb (is_space c) end = true ∧
      match rev payload with [] => true | c :: _ => negb (is_space c) end = true ∧
      ∀ blanks,
        forallb is_space blanks = true → forallb is_dot blanks = true →
        parse_log_line (digits ++ LITERAL ++ (data ++ blanks) ++ tail)
        = Returned (Some (key, timestamp, data ++ blanks)) ∧
        split COMMA (data ++ blanks)
        = removelast (split COMMA data) ++ [List.last (split COMMA data) [] ++ blanks] ∧
        ∀ logs,
          process_line logs (digits ++ LITERAL ++ (data ++ blanks) ++ tail)
          = process_line logs line.
Proof.
  split; [by vm_compute|].
  intros line key timestamp data H.
  destruct (parse_log_line_inv_bound _ _ _ _ H)
    as (digits & tail & -> & Hd & Hds & Hlim & Hr & Hrs & Ht & -> & Hlen).
  destruct (payload_decompose data) as (l & r & Hdec & Hl & Hrb & Hhead & Hlast).
  exists digits, tail, (strip (escape_quotes data)), l, r.
  split; [done|]. split.
  { intros logs. by rewrite (process_line_some _ _ _ _ _ H), log_entry_eq. }
  do 5 (split; [done|]).
  intros blanks Hb Hbd.
  assert (count_char COMMA blanks = 0) as Hc by (by apply count_char_blanks).
  assert (parse_log_line (digits ++ LITERAL ++ (data ++ blanks) ++ tail)
          = Returned (Some (key, decimal_value digits, data ++ blanks))) as Hp.
  { apply parse_matched_key; try done.
    - by destruct data.
    - by rewrite forallb_app, Hrs, Hbd.
    - rewrite <- Hlen, !length_split, count_char_app, Hc. lia. }
  split; [done|]. split; [by apply split_app_nosep|].
  intros logs.
  rewrite (process_line_some _ _ _ _ _ H), (process_line_some _ _ _ _ _ Hp).
  by rewrite log_entry_blanks_after.
Qed.

Lemma C9_blanks_stripped_witness :
  ∃ payload,
    process_line ([], []) (txt "3 instruments: 1,2,3,4,5,6,7,8,9,10,11  " ++ [NEWLINE])
    = Returned ([py_str 3 ++ [COMMA; SPACE] ++ payload], []) ∧
    match rev payload with [] => true | c :: _ => negb (is_space c) end = true.
Proof.
  destruct (proj2 C9_blanks_stripped
              (txt "3 instruments: 1,2,3,4,5,6,7,8,9,10,11  " ++ [NEWLINE])
              worker 3%N (txt "1,2,3,4,5,6,7,8,9,10,11  ") eq_refl)
    as (digits & tail & payload & l & r & _ & Hrow & _ & _ & _ & _ & Hlast & _).
  exists payload. split; [exact (Hrow ([], [])) | exact Hlast].
Defined.



Lemma length_string_of_uint d :
  length (list_ascii_of_string (NilEmpty.string_of_uint d)) = Decimal.nb_digits d.
Proof. induction d; simpl; by rewrite ?IHd. Qed.

(** [str] of the value of a run of digits is no longer than the run. *)
Lemma length_py_str_decimal_value ds :
  ds ≠ [] → forallb is_digit ds = true →
  length (py_str (decimal_value ds)) ≤ length ds.
Proof.
  intros Hne Hds.
  destruct (uint_of_digits ds Hds) as (d & Hd & Hv & _ & Hnil).
  specialize (Hnil Hne).
  unfold py_str. rewrite <- Hv, <- DecimalPos.Unsigned.of_uint_alt.
  change (Pos.of_uint d) with (N.of_uint d).
  rewrite DecimalN.Unsigned.to_of.
  assert (NilZero.string_of_uint (Decimal.unorm d)
          = NilEmpty.string_of_uint (Decimal.unorm d)) as ->.
  { pose proof (unorm_nonnil d). by destruct (Decimal.unorm d). }
  rewrite length_string_of_uint.
  etrans; [by apply nb_digits_unorm|].
  rewrite <- length_string_of_uint, (NilEmpty.sus _ _ Hd).
  by rewrite list_ascii_of_string_of_list_ascii.
Qed.




(** ** Lemmas on the file system *)

Lemma write_open path s w content :
  files w !! path = Some content →
  write path s w = (Returned (), with_files (insert path (content ++ s)) w).
Proof.
  intros H. unfold write, with_files. do 2 f_equal.
  apply map_eq. intros i. destruct (decide (i = path)) as [->|Hne].
  - by rewrite lookup_alter_eq, lookup_insert_eq, H.
  - by rewrite lookup_alter_ne, lookup_insert_ne.
Qed.

Lemma for_each_write path rows w content :
  files w !! path = Some content →
  for_each rows (fun log => write path (log ++ [NEWLINE])) w
  = (Returned (),
     with_files (insert path (content ++ concat (map (fun row => row ++ [NEWLINE]) rows))) w).
Proof.
  revert w content. induction rows as [|row rows IH]; intros w content H.
  - simpl. unfold mret, M_ret, with_files. rewrite app_nil_r, insert_id by done.
    by destruct w.
  - cbn [for_each]. unfold mbind, M_bind.
    rewrite (write_open _ _ _ _ H).
    rewrite (IH _ (content ++ row ++ [NEWLINE])).
    + unfold with_files. simpl. rewrite insert_insert_eq.
      by rewrite <- !app_assoc.
    + simpl. apply lookup_insert_eq.
Qed.

(** The batch writer leaves exactly header and rows in the file,
    whatever the file held before. *)
Lemma write_logs_to_file_spec logs output_file header w :
  write_logs_to_file logs output_file header w
  = (Returned (), with_files (insert output_file (csv header logs)) w).
Proof.
  unfold write_logs_to_file, mbind, M_bind, open_w.
  rewrite (write_open output_file header _ []) by apply lookup_insert_eq.
  rewrite (for_each_write output_file logs _ ([] ++ header)).
  - unfold with_files, csv. simpl. by rewrite !insert_insert_eq.
  - simpl. apply lookup_insert_eq.
Qed.

(** When no line has a long integer, the loop files each row under its
    key, in order. *)
Lemma process_lines_rows lines logs :
  existsb long_integer lines = false →
  process_lines logs lines
  = Returned (logs.1 ++ rows_of worker lines, logs.2 ++ rows_of controller lines).
Proof.
  revert logs. induction lines as [|line lines IH]; intros [wl cl] Hlong.
  - simpl. by rewrite !app_nil_r.
  - cbn [existsb] in Hlong. apply orb_false_iff in Hlong as [Hline Hlong].
    cbn [process_lines rows_of].
    destruct (parse_log_line_outcome line) as [[? _]|[_ [[[[key timestamp] data]|] H]]];
      [congruence|..].
    + rewrite (process_line_some _ _ _ _ _ H), H.
      destruct key; simpl; rewrite IH by done; simpl; by rewrite <- ?app_assoc.
    + rewrite (process_line_none _ _ H), H. simpl. by apply IH.
Qed.

(** A line with a long integer ends the loop with the error of [int]. *)
Lemma process_lines_raises lines logs :
  existsb long_integer lines = true →
  process_lines logs lines = Raised ValueError.
Proof.
  revert logs. induction lines as [|line lines IH]; intros [wl cl] Hlong; [done|].
  cbn [process_lines].
  destruct (parse_log_line_outcome line) as [[_ H]|[Hline [[[[key timestamp] data]|] H]]].
  - unfold process_line. by rewrite H.
  - cbn [existsb] in Hlong. rewrite Hline in Hlong.
    rewrite (process_line_some _ _ _ _ _ H). simpl. by destruct key; apply IH.
  - cbn [existsb] in Hlong. rewrite Hline in Hlong.
    rewrite (process_line_none _ _ H). simpl. by apply IH.
Qed.

(** One cycle, as a function of the content of the input file. *)
Lemma process_log_spec input worker_out controller_out w content :
  files w !! input = Some content →
  existsb long_integer (input_lines content) = false →
  process_log input worker_out controller_out w
  = (Returned (),
     with_files
       (fun fs =>
          <[controller_out := csv CONTROLLER_CSV_HEADER (rows_of controller (input_lines content))]>
            (<[worker_out := csv WORKER_CSV_HEADER (rows_of worker (input_lines content))]> fs))
       w).
Proof.
  intros H Hlong. unfold process_log, mbind, M_bind, read_lines, lift.
  fold (input_lines content).
  rewrite H, process_lines_rows by done. cbn [fst snd app].
  by rewrite !write_logs_to_file_spec.
Qed.

(** A line with a long integer ends the cycle before anything is written. *)
Lemma process_log_raises input worker_out controller_out w content :
  files w !! input = Some content →
  existsb long_integer (input_lines content) = true →
  process_log input worker_out controller_out w = (Raised ValueError, w).
Proof.
  intros H Hlong. unfold process_log, mbind, M_bind, read_lines, lift.
  fold (input_lines content).
  by rewrite H, process_lines_raises.
Qed.

Lemma process_log_missing input worker_out controller_out w :
  files w !! input = None →
  process_log input worker_out controller_out w = (Raised FileNotFoundError, w).
Proof.
  intros H. unfold process_log, mbind, M_bind, read_lines. by rewrite H.
Qed.

(** A cycle either returns, or raises and leaves the world as it was. *)
Lemma process_log_outcome input worker_out controller_out w :
  (process_log input worker_out controller_out w).1 = Returned () ∨
  ∃ e, process_log input worker_out controller_out w = (Raised e, w).
Proof.
  destruct (files w !! input) as [content|] eqn:Hin.
  - destruct (existsb long_integer (input_lines content)) eqn:Hlong.
    + right. eexists. by apply process_log_raises with content.
    + left. by rewrite (process_log_spec _ _ _ _ content).
  - right. eexists. by apply process_log_missing.
Qed.

(** ** Lemmas on the lines of the output *)

Lemma iter_lines_line l rest :
  forallb is_dot l = true →
  iter_lines (l ++ NEWLINE :: rest) = (l ++ [NEWLINE]) :: iter_lines rest.
Proof.
  induction l as [|c l IH]; [done|]. cbn [forallb]. intros [Hc Hl]%andb_true_iff.
  cbn [app iter_lines]. unfold is_dot in Hc. apply negb_true_iff in Hc.
  by rewrite Hc, (IH Hl).
Qed.

Lemma iter_lines_rows rows :
  Forall (fun row => forallb is_dot row = true) rows →
  iter_lines (concat (map (fun row => row ++ [NEWLINE]) rows))
  = map (fun row => row ++ [NEWLINE]) rows.
Proof.
  induction 1 as [|row rows Hrow _ IH]; [done|].
  cbn [map concat]. rewrite <- app_assoc. cbn [app].
  by rewrite iter_lines_line, IH.
Qed.

(** A file of a one-line header and rows without line feed reads back as
    the header and one line per row. *)
Lemma iter_lines_csv h rows :
  forallb is_dot h = true →
  Forall (fun row => forallb is_dot row = true) rows →
  iter_lines (csv (h ++ [NEWLINE]) rows)
  = (h ++ [NEWLINE]) :: map (fun row => row ++ [NEWLINE]) rows.
Proof.
  intros Hh Hrows. unfold csv. rewrite <- app_assoc. cbn [app].
  by rewrite iter_lines_line, iter_lines_rows.
Qed.

Lemma forallb_is_dot_uint d :
  forallb is_dot (list_ascii_of_string (NilEmpty.string_of_uint d)) = true.
Proof. induction d; simpl; by rewrite ?IHd. Qed.

Lemma forallb_is_dot_py_str n : forallb is_dot (py_str n) = true.
Proof.
  unfold py_str, NilZero.string_of_uint.
  destruct (N.to_uint n) eqn:E; rewrite <- ?E; try apply forallb_is_dot_uint. done.
Qed.

Lemma forallb_is_digit_uint d :
  forallb is_digit (list_ascii_of_string (NilEmpty.string_of_uint d)) = true.
Proof. induction d; simpl; by rewrite ?IHd. Qed.

Lemma forallb_is_digit_py_str n : forallb is_digit (py_str n) = true.
Proof.
  unfold py_str, NilZero.string_of_uint.
  destruct (N.to_uint n) eqn:E; rewrite <- ?E; try apply forallb_is_digit_uint. done.
Qed.

Lemma forallb_strip p s : forallb p s = true → forallb p (strip s) = true.
Proof.
  destruct (strip_decompose s) as (l & r & Hs & _ & _). rewrite Hs at 1.
  rewrite !forallb_app. by intros [_ [? _]%andb_true_iff]%andb_true_iff.
Qed.

Lemma forallb_is_dot_log_entry timestamp data :
  forallb is_dot data = true → forallb is_dot (log_entry timestamp data) = true.
Proof.
  intros H. rewrite log_entry_eq, !forallb_app, forallb_is_dot_py_str.
  rewrite forallb_strip; [done|]. by apply forallb_escape_quotes.
Qed.

(** What a row is made of: the integer the digits of its line denote and
    the payload of that line. *)
Lemma rows_of_origin key lines row :
  row ∈ rows_of key lines →
  ∃ digits data tail,
    digits ++ LITERAL ++ data ++ tail ∈ lines ∧
    digits ≠ [] ∧ forallb is_digit digits = true ∧
    length digits ≤ int_max_str_digits ∧
    forallb is_dot data = true ∧
    py_int digits = Returned (decimal_value digits) ∧
    row = py_str (decimal_value digits) ++ [COMMA; SPACE]
          ++ strip (escape_quotes data).
Proof.
  induction lines as [|line lines IH]; cbn [rows_of]; [by intros ?%elem_of_nil|].
  assert (row ∈ rows_of key lines →
          ∃ digits data tail,
            digits ++ LITERAL ++ data ++ tail ∈ line :: lines ∧
            digits ≠ [] ∧ forallb is_digit digits = true ∧
            length digits ≤ int_max_str_digits ∧
            forallb is_dot data = true ∧
            py_int digits = Returned (decimal_value digits) ∧
            row = py_str (decimal_value digits) ++ [COMMA; SPACE]
                  ++ strip (escape_quotes data)) as Hrest.
  { intros (digits & data & tail & Hin & H)%IH.
    exists digits, data, tail. split; [by apply list_elem_of_further|done]. }
  destruct (parse_log_line line) as [[[[key' timestamp] data]|]|e] eqn:E; [|done..].
  destruct (decide (key' = key)) as [->|Hne]; [|done].
  intros [->|Hin]%elem_of_cons; [|by apply Hrest].
  destruct (parse_log_line_inv_bound _ _ _ _ E)
    as (digits & tail & -> & Hd & Hds & Hlim & _ & Hdots & _ & -> & _).
  exists digits, data, tail. split; [apply list_elem_of_here|].
  repeat split; try done; [by apply py_int_digits|apply log_entry_eq].
Qed.

Lemma rows_of_no_newline key lines :
  Forall (fun row => forallb is_dot row = true) (rows_of key lines).
Proof.
  apply Forall_forall. intros row (digits & data & tail & _ & _ & _ & _ & Hdots & _ & ->)%rows_of_origin.
  rewrite <- log_entry_eq. by apply forallb_is_dot_log_entry.
Qed.

Lemma length_rows_of key lines :
  length (rows_of key lines) = count_kind key lines.
Proof.
  unfold count_kind, classify. induction lines as [|line lines IH]; [done|].
  cbn [rows_of]. rewrite filter_cons.
  destruct (parse_log_line line) as [[[[key' timestamp] data]|]|e].
  - destruct (decide (key' = key)) as [->|Hne].
    + rewrite decide_True by done. simpl. by rewrite IH.
    + rewrite decide_False by congruence. done.
  - rewrite decide_False by done. done.
  - rewrite decide_False by done. done.
Qed.

Lemma snapshot_twice (fs : gmap string text) wout cout W C :
  <[cout := C]> (<[wout := W]> (<[cout := C]> (<[wout := W]> fs)))
  = <[cout := C]> (<[wout := W]> fs).
Proof.
  apply map_eq. intros i. rewrite !lookup_insert. by repeat case_decide.
Qed.

Lemma header_lines :
  (∃ h, WORKER_CSV_HEADER = h ++ [NEWLINE] ∧ forallb is_dot h = true) ∧
  (∃ h, CONTROLLER_CSV_HEADER = h ++ [NEWLINE] ∧ forallb is_dot h = true).
Proof. split; eexists; (split; [reflexivity|by vm_compute]). Qed.

(** ** The batch writer and the cycle: C6, C7, C8 *)

(** C6, as amended.  [write_logs_to_file] replaces whatever the file
    held by the header followed by the rows, in their order, each ended by
    a line feed; with a one-line header and rows free of line feeds the
    file reads back as the header and one line per row.  When the input
    file has exactly one worker line and one controller line, and no line
    with an integer longer than [int] converts, a cycle leaves two lines
    in each output file: the header and one row. *)
Theorem C6_batch_writer :
  (∀ logs output_file header w,
     write_logs_to_file logs output_file header w
     = (Returned (),
        with_files
          (insert output_file (header ++ concat (map (fun log => log ++ [NEWLINE]) logs)))
          w)) ∧
  (∀ h logs,
     forallb is_dot h = true →
     Forall (fun log => forallb is_dot log = true) logs →
     iter_lines (h ++ [NEWLINE] ++ concat (map (fun log => log ++ [NEWLINE]) logs))
     = (h ++ [NEWLINE]) :: map (fun log => log ++ [NEWLINE]) logs) ∧
  (∀ w input wout cout content,
     files w !! input = Some content →
     wout ≠ cout →
     existsb long_integer (input_lines content) = false →
     count_kind worker (input_lines content) = 1 →
     count_kind controller (input_lines content) = 1 →
     ∃ w' wrow crow,
       process_log input wout cout w = (Returned (), w') ∧
       files w' !! wout = Some (WORKER_CSV_HEADER ++ wrow ++ [NEWLINE]) ∧
       iter_lines (WORKER_CSV_HEADER ++ wrow ++ [NEWLINE])
       = [WORKER_CSV_HEADER; wrow ++ [NEWLINE]] ∧
       files w' !! cout = Some (CONTROLLER_CSV_HEADER ++ crow ++ [NEWLINE]) ∧
       iter_lines (CONTROLLER_CSV_HEADER ++ crow ++ [NEWLINE])
       = [CONTROLLER_CSV_HEADER; crow ++ [NEWLINE]]).
Proof.
  split; [apply write_logs_to_file_spec|]. split.
  { intros h logs Hh Hlogs. rewrite app_assoc. by apply iter_lines_csv. }
  intros w input wout cout content Hin Hne Hlong Hw Hc.
  rewrite <- length_rows_of in Hw, Hc.
  pose proof (rows_of_no_newline worker (input_lines content)) as Nw.
  pose proof (rows_of_no_newline controller (input_lines content)) as Nc.
  pose proof (process_log_spec input wout cout w content Hin Hlong) as Hrun.
  destruct (rows_of worker (input_lines content)) as [|wrow [|]]; try done.
  destruct (rows_of controller (input_lines content)) as [|crow [|]]; try done.
  destruct header_lines as [(hw & Ehw & Hhw) (hc & Ehc & Hhc)].
  eexists _, wrow, crow. split; [exact Hrun|].
  unfold with_files, csv; simpl. rewrite !app_nil_r.
  split; [by rewrite lookup_insert_ne, lookup_insert_eq|].
  split; [|split; [by rewrite lookup_insert_eq|]].
  - pose proof (iter_lines_csv hw [wrow] Hhw Nw) as H.
    unfold csv in H. simpl in H. by rewrite app_nil_r, <- Ehw in H.
  - pose proof (iter_lines_csv hc [crow] Hhc Nc) as H.
    unfold csv in H. simpl in H. by rewrite app_nil_r, <- Ehc in H.
Qed.

(** C6 as it was stated fails on a log of one worker line with 4301
    digits in front and one controller line: the pattern matches both, one
    has 11 and the other 24 items, and the cycle raises and writes neither
    file. *)
Lemma C6_batch_writer_counterexample :
  (∃ wl cl, input_lines long_log = [wl; cl] ∧
            (∃ digits data, re_match wl = Some (digits, data) ∧
                            length (split COMMA data) = 11) ∧
            (∃ digits data, re_match cl = Some (digits, data) ∧
                            length (split COMMA data) = 24)) ∧
  process_log input_file worker_file controller_file long_world
  = (Raised ValueError, long_world) ∧
  files long_world !! worker_file = None ∧
  files long_world !! controller_file = None.
Proof.
  split.
  - eexists _, _. split; [by vm_compute|]. split; eexists _, _; by vm_compute.
  - split; [|by vm_compute].
    apply process_log_raises with long_log; by vm_compute.
Qed.

(** C7. A second cycle over an input file that is not one of the output
    files ends as the first did and leaves every file as the first left
    it, at whatever time it runs and whether the first returned or raised.
    A cycle returns when the input file is there and none of its lines
    has an integer longer than [int] converts, and then the two output
    files depend on nothing but the content of the input file. *)
Theorem C7_idempotent_cycle (w : world) (input wout cout : string) :
  input ≠ wout → input ≠ cout →
  (∀ clock,
     process_log input wout cout
       (World clock (files (process_log input wout cout w).2))
     = ((process_log input wout cout w).1,
        World clock (files (process_log input wout cout w).2))) ∧
  (∀ content,
     files w !! input = Some content →
     existsb long_integer (input_lines content) = false →
     (process_log input wout cout w).1 = Returned () ∧
     ∀ w',
       files w' !! input = Some content →
       (process_log input wout cout w').1 = Returned () ∧
       files (process_log input wout cout w').2 !! wout
       = files (process_log input wout cout w).2 !! wout ∧
       files (process_log input wout cout w').2 !! cout
       = files (process_log input wout cout w).2 !! cout).
Proof.
  intros Hw Hc. split.
  - intros clock. destruct (files w !! input) as [content|] eqn:Hin.
    + destruct (existsb long_integer (input_lines content)) eqn:Hlong.
      * rewrite (process_log_raises _ _ _ w content) by done. simpl.
        by rewrite (process_log_raises _ _ _ _ content).
      * rewrite (process_log_spec _ _ _ w content) by done. simpl.
        rewrite (process_log_spec _ _ _ _ content);
          [|simpl; by rewrite !lookup_insert_ne|done].
        unfold with_files. simpl. by rewrite snapshot_twice.
    + rewrite (process_log_missing _ _ _ w) by done. simpl.
      by rewrite process_log_missing.
  - intros content Hin Hlong.
    rewrite (process_log_spec _ _ _ w content) by done.
    split; [done|]. intros w' Hin'.
    rewrite (process_log_spec _ _ _ w' content) by done.
    split; [done|]. simpl. rewrite !lookup_insert. by repeat case_decide.
Qed.

(** C8. On the sample log the two tables hold the counters 1 and 2 of
    its lines, at whatever clock reading.  The conversion to calendar time
    is never run, and running it would leave the world as it is.  A cycle
    does not look at the clock: from two worlds with the same files and
    any two clock readings it ends the same way and leaves the same
    files, and it does not move the clock.  When the cycle returns, every
    row starts with the integer in front of its line as [int] parsed it,
    and [int] reads that integer back from the digits the row starts
    with. *)
Theorem C8_clock_irrelevant :
  (∀ clock,
     files (process_log input_file worker_file controller_file (sample_world clock)).2
       !! worker_file
     = Some (WORKER_CSV_HEADER ++ txt "1, 1,2,3,4,5,6,7,8,9,10,11" ++ [NEWLINE]) ∧
     files (process_log input_file worker_file controller_file (sample_world clock)).2
       !! controller_file
     = Some (CONTROLLER_CSV_HEADER
             ++ txt "2, 1,2,3,4,5,6,7,8,9,10,11,12,13,14,15,16,17,18,19,20,21,22,23,24"
             ++ [NEWLINE])) ∧
  (∀ (w1 w2 : world) (input wout cout : string),
     files w1 = files w2 →
     (process_log input wout cout w1).1 = (process_log input wout cout w2).1 ∧
     files (process_log input wout cout w1).2 = files (process_log input wout cout w2).2 ∧
     now (process_log input wout cout w1).2 = now w1 ∧
     (∀ content,
        files w1 !! input = Some content →
        existsb long_integer (input_lines content) = false →
        (process_log input wout cout w1).1 = Returned () ∧
        files (process_log input wout cout w1).2 !! cout
        = Some (csv CONTROLLER_CSV_HEADER (rows_of controller (input_lines content))) ∧
        (wout ≠ cout →
         files (process_log input wout cout w1).2 !! wout
         = Some (csv WORKER_CSV_HEADER (rows_of worker (input_lines content)))) ∧
        ∀ key row,
          row ∈ rows_of key (input_lines content) →
          ∃ digits data tail,
            digits ++ LITERAL ++ data ++ tail ∈ input_lines content ∧
            digits ≠ [] ∧ forallb is_digit digits = true ∧
            forallb is_dot data = true ∧
            py_int digits = Returned (decimal_value digits) ∧
            row = py_str (decimal_value digits) ++ [COMMA; SPACE]
                  ++ strip (escape_quotes data) ∧
            py_int (take_while is_digit row) = py_int digits)) ∧
  (∀ strptime year_of_clock timestamp_of timestamp_str w,
     (convert_to_unix_timestamp strptime year_of_clock timestamp_of timestamp_str w).2 = w).
Proof.
  split; [|split; [|done]].
  { intros clock.
    rewrite (process_log_spec _ _ _ _ sample_log) by (by vm_compute).
    unfold with_files. cbn [files snd].
    rewrite lookup_insert_eq, lookup_insert_ne, lookup_insert_eq by done.
    split; f_equal; by vm_compute. }
  intros w1 w2 input wout cout Hfiles.
  destruct (files w1 !! input) as [content|] eqn:Hin.
  - destruct (existsb long_integer (input_lines content)) eqn:Hlong.
    + rewrite (process_log_raises _ _ _ w1 content) by done.
      rewrite (process_log_raises _ _ _ w2 content) by (by rewrite <- ?Hfiles).
      simpl. split; [done|]. split; [done|]. split; [done|].
      intros ? [= <-] ?. congruence.
    + rewrite (process_log_spec _ _ _ w1 content) by done.
      rewrite (process_log_spec _ _ _ w2 content) by (by rewrite <- ?Hfiles).
      unfold with_files. simpl. rewrite Hfiles.
      split; [done|]. split; [done|]. split; [done|].
      intros ? [= <-] _. split; [done|].
      split; [by rewrite lookup_insert_eq|]. split.
      * intros Hne. by rewrite lookup_insert_ne, lookup_insert_eq.
      * intros key row
          (digits & data & tail & Hl & Hd & Hds & Hlim & Hdots & Hint & ->)%rows_of_origin.
        exists digits, data, tail. do 6 (split; [done|]).
        rewrite <- log_entry_eq.
        destruct (take_while_stop is_digit (py_str (decimal_value digits))
                    ([COMMA; SPACE] ++ strip (escape_quotes data))
                    (forallb_is_digit_py_str _) eq_refl) as [Htake _].
        rewrite log_entry_eq, Htake, Hint. apply py_int_py_str.
        pose proof (length_py_str_decimal_value digits Hd Hds). lia.
  - rewrite (process_log_missing _ _ _ w1) by done.
    rewrite (process_log_missing _ _ _ w2) by (by rewrite <- Hfiles).
    simpl. split; [done|]. split; [done|]. split; [done|].
    by intros content ?.
Qed.

Lemma C6_batch_writer_witness :
  ∃ w' wrow crow,
    process_log input_file worker_file controller_file (sample_world 0)
    = (Returned (), w') ∧
    files w' !! worker_file = Some (WORKER_CSV_HEADER ++ wrow ++ [NEWLINE]) ∧
    iter_lines (WORKER_CSV_HEADER ++ wrow ++ [NEWLINE])
    = [WORKER_CSV_HEADER; wrow ++ [NEWLINE]] ∧
    files w' !! controller_file = Some (CONTROLLER_CSV_HEADER ++ crow ++ [NEWLINE]) ∧
    iter_lines (CONTROLLER_CSV_HEADER ++ crow ++ [NEWLINE])
    = [CONTROLLER_CSV_HEADER; crow ++ [NEWLINE]].
Proof.
  apply (proj2 (proj2 C6_batch_writer) (sample_world 0) input_file worker_file
           controller_file sample_log).
  - vm_compute. reflexivity.
  - discriminate.
  - vm_compute. reflexivity.
  - vm_compute. reflexivity.
  - vm_compute. reflexivity.
Defined.

Lemma C7_idempotent_cycle_witness :
  process_log input_file worker_file controller_file
    (World 1 (files (process_log input_file worker_file controller_file
                       (sample_world 0)).2))
  = ((process_log input_file worker_file controller_file (sample_world 0)).1,
     World 1 (files (process_log input_file worker_file controller_file
                       (sample_world 0)).2)).
Proof.
  exact (proj1 (C7_idempotent_cycle (sample_world 0) input_file worker_file
                  controller_file ltac:(discriminate) ltac:(discriminate)) 1%Z).
Defined.

Lemma C8_clock_irrelevant_witness :
  files (process_log input_file worker_file controller_file (sample_world 1700000000)).2
  = files (process_log input_file worker_file controller_file (sample_world 1800000000)).2.
Proof.
  exact (proj1 (proj2 (proj1 (proj2 C8_clock_irrelevant) (sample_world 1700000000)
                         (sample_world 1800000000) input_file worker_file
                         controller_file eq_refl))).
Defined.

(** ** The polling loop *)

(** However often the loop has turned, the files are those the first
    cycle left, and the clock has moved by one second per turn. *)
Lemma main_loop_snapshot n w content :
  files w !! input_file = Some content →
  existsb long_integer (input_lines content) = false →
  main_loop (S n) w
  = (Returned (),
     World (now w + Z.of_nat (S n))
       (files (process_log input_file worker_file controller_file w).2)).
Proof.
  intros Hin Hlong. revert w Hin. induction n as [|n IH]; intros w Hin.
  - cbn [main_loop]. unfold mbind, M_bind, sleep, mret, M_ret.
    by rewrite (process_log_spec _ _ _ _ content Hin Hlong).
  - change (main_loop (S (S n)))
      with (process_log input_file worker_file controller_file;;
            sleep 1;; main_loop (S n)).
    unfold mbind, M_bind at 1 2. unfold sleep at 1.
    rewrite (process_log_spec _ _ _ _ content Hin Hlong).
    rewrite IH by (simpl; by rewrite !lookup_insert_ne).
    rewrite (process_log_spec _ _ _ _ content)
      by (done || (simpl; by rewrite !lookup_insert_ne)).
    unfold with_files. simpl. rewrite snapshot_twice. do 2 f_equal. lia.
Qed.

(** A line with a long integer ends the loop in its first turn. *)
Lemma main_loop_raises n w content :
  files w !! input_file = Some content →
  existsb long_integer (input_lines content) = true →
  main_loop (S n) w = (Raised ValueError, w).
Proof.
  intros Hin Hlong. cbn [main_loop]. unfold mbind, M_bind.
  by rewrite (process_log_raises _ _ _ _ content).
Qed.

(** Without the input file the first turn raises and the loop is over. *)
Lemma main_loop_missing n w :
  files w !! input_file = None →
  main_loop (S n) w = (Raised FileNotFoundError, w).
Proof.
  intros H. cbn [main_loop]. unfold mbind, M_bind.
  by rewrite process_log_missing.
Qed.

(** ** More on the classifier *)

(** The test for the marker never decides: the pattern contains it. *)
Lemma parse_by_re_match line :
  parse_log_line line
  = match re_match line with
    | Some (timestamp, data) =>
        timestamp ← py_int timestamp;
        let data_items := split COMMA data in
        if length data_items =? 11 then
          Returned (Some (worker, timestamp, data))
        else if length data_items =? 24 then
          Returned (Some (controller, timestamp, data))
        else Returned None
    | None => Returned None
    end.
Proof.
  unfold parse_log_line. fold MARKER.
  destruct (re_match line) as [[digits data]|] eqn:E; [|by case_match].
  destruct (re_match_inv _ _ _ E) as (tail & -> & _).
  by rewrite contains_marker.
Qed.

Lemma digit_is_dot c : is_digit c = true → is_dot c = true.
Proof.
  unfold is_dot. destruct (Ascii.eqb_spec c NEWLINE) as [->|]; [|done].
  by vm_compute.
Qed.

(** A prefix without line feed of a text ends before its first line feed. *)
Lemma prefix_before_newline a t l rest :
  forallb is_dot a = true → forallb is_dot l = true →
  a ++ t = l ++ NEWLINE :: rest → ∃ t', l = a ++ t'.
Proof.
  revert l. induction a as [|c a IH]; intros l Ha Hl H; [by exists l|].
  cbn [forallb] in Ha. apply andb_true_iff in Ha as [Hc Ha].
  destruct l as [|c' l]; simpl in H.
  - injection H as -> _. by vm_compute in Hc.
  - injection H as -> H. cbn [forallb] in Hl. apply andb_true_iff in Hl as [_ Hl].
    destruct (IH l Ha Hl H) as [t' ->]. by exists t'.
Qed.

Lemma re_match_before_newline l rest :
  forallb is_dot l = true → re_match (l ++ NEWLINE :: rest) = re_match l.
Proof.
  intros Hl. destruct (re_match l) as [[digits data]|] eqn:E.
  - destruct (re_match_inv _ _ _ E) as (tail & -> & Hd & Hds & Hr & Hrs & Ht).
    assert (tail = []) as ->.
    { destruct tail as [|c t]; [done|]. simpl in Ht. apply Ascii.eqb_eq in Ht as ->.
      rewrite !forallb_app in Hl. cbn [forallb] in Hl.
      by repeat (apply andb_true_iff in Hl as [? Hl]). }
    rewrite app_nil_r, <- !app_assoc. by apply re_match_greedy.
  - destruct (re_match (l ++ NEWLINE :: rest)) as [[digits data]|] eqn:E'; [|done].
    destruct (re_match_inv _ _ _ E') as (tail & H & Hd & Hds & Hr & Hrs & _).
    assert (forallb is_dot (digits ++ LITERAL ++ data) = true) as Ha.
    { rewrite !forallb_app, Hrs, (forallb_impl is_digit is_dot digits digit_is_dot Hds).
      done. }
    symmetry in H. rewrite 2!app_assoc in H. rewrite <- (app_assoc digits) in H.
    destruct (prefix_before_newline _ _ _ _ Ha Hl H) as [t' ->].
    assert (is_Some (re_match ((digits ++ LITERAL ++ data) ++ t'))) as [r Hs].
    { apply re_match_is_Some. exists digits, data, t'. by rewrite <- !app_assoc. }
    congruence.
Qed.

Lemma re_match_no_digit line :
  match line with [] => true | c :: _ => negb (is_digit c) end = true →
  re_match line = None.
Proof.
  intros H. unfold re_match. destruct line as [|c s]; [done|].
  simpl. apply negb_true_iff in H. by rewrite H.
Qed.

(** X1. Whatever the classifier accepts has the shape of the pattern:
    the line is a non-empty run of digits, the literal, then the payload
    returned, which is not empty, holds no line feed and ends at the end of
    the line or at its line feed; the timestamp is the value of the digits
    and the payload has 11 items under worker, 24 under controller. *)
Theorem X1_classified_line_shape line key timestamp data :
  parse_log_line line = Returned (Some (key, timestamp, data)) →
  ∃ digits tail,
    line = digits ++ LITERAL ++ data ++ tail ∧
    digits ≠ [] ∧ forallb is_digit digits = true ∧
    data ≠ [] ∧ forallb is_dot data = true ∧
    group_end tail = true ∧
    timestamp = decimal_value digits ∧
    length (split COMMA data) = match key with worker => 11 | controller => 24 end.
Proof. apply parse_log_line_inv. Qed.

Lemma X1_classified_line_shape_witness :
  ∃ digits tail,
    txt "100 instruments: 1,2,3,4,5,6,7,8,9,10,11" ++ [NEWLINE]
    = digits ++ LITERAL ++ txt "1,2,3,4,5,6,7,8,9,10,11" ++ tail ∧
    digits ≠ [] ∧ forallb is_digit digits = true ∧
    txt "1,2,3,4,5,6,7,8,9,10,11" ≠ [] ∧
    forallb is_dot (txt "1,2,3,4,5,6,7,8,9,10,11") = true ∧
    group_end tail = true ∧
    100%N = decimal_value digits ∧
    length (split COMMA (txt "1,2,3,4,5,6,7,8,9,10,11")) = 11.
Proof.
  exact (X1_classified_line_shape
           (txt "100 instruments: 1,2,3,4,5,6,7,8,9,10,11" ++ [NEWLINE])
           worker 100%N (txt "1,2,3,4,5,6,7,8,9,10,11") eq_refl).
Defined.

(** X2. The classifier raises on the lines the pattern matches with an
    integer of more digits than [int] converts, whatever the number of
    their fields, and on no other line; the error is that of [int].  The
    loop over the lines raises when one of them is such a line, and
    returns otherwise. *)
Theorem X2_classifier_outcome :
  (∀ line, long_integer line = true → parse_log_line line = Raised ValueError) ∧
  (∀ line, long_integer line = false → ∃ r, parse_log_line line = Returned r) ∧
  (∀ lines logs, existsb long_integer lines = true →
                 process_lines logs lines = Raised ValueError) ∧
  (∀ lines logs, existsb long_integer lines = false →
                 ∃ logs', process_lines logs lines = Returned logs').
Proof.
  split; [|split; [|split]].
  - intros line H. destruct (parse_log_line_outcome line) as [[_ ?]|[? _]]; [done|congruence].
  - intros line H. destruct (parse_log_line_outcome line) as [[? _]|[_ ?]]; [congruence|done].
  - intros lines logs. apply process_lines_raises.
  - intros lines logs H. rewrite process_lines_rows by done. by eexists.
Qed.

(** X3. The test whether the line contains [instruments:] changes
    nothing: every line the pattern matches contains it, so the classifier
    answers as the pattern alone would make it. *)
Theorem X3_marker_test_redundant line :
  (is_Some (re_match line) → contains MARKER line = true) ∧
  parse_log_line line
  = match re_match line with
    | Some (timestamp, data) =>
        timestamp ← py_int timestamp;
        let data_items := split COMMA data in
        if length data_items =? 11 then
          Returned (Some (worker, timestamp, data))
        else if length data_items =? 24 then
          Returned (Some (controller, timestamp, data))
        else Returned None
    | None => Returned None
    end.
Proof.
  split; [|apply parse_by_re_match].
  intros [[digits data] (tail & -> & _)%re_match_inv]. apply contains_marker.
Qed.

(** X4. The pattern is not anchored at the end and its second group
    stops at a line feed: whatever follows the first line feed of the
    string is not looked at, and a line is classified the same with and
    without its line feed. *)
Theorem X4_text_after_line_feed_ignored l rest :
  forallb is_dot l = true →
  parse_log_line (l ++ NEWLINE :: rest) = parse_log_line l.
Proof.
  intros Hl. by rewrite !parse_by_re_match, re_match_before_newline.
Qed.

Lemma X4_text_after_line_feed_ignored_witness :
  parse_log_line (txt "100 instruments: 1,2,3,4,5,6,7,8,9,10,11"
                  ++ NEWLINE :: txt "200 instruments: 1,2")
  = parse_log_line (txt "100 instruments: 1,2,3,4,5,6,7,8,9,10,11").
Proof.
  exact (X4_text_after_line_feed_ignored
           (txt "100 instruments: 1,2,3,4,5,6,7,8,9,10,11")
           (txt "200 instruments: 1,2") eq_refl).
Defined.

(** X5. The match starts at the first character: an empty line, and a
    line whose first character is not a digit (a blank, a bracket, a sign),
    is dropped whatever follows. *)
Theorem X5_must_start_with_digit line :
  match line with [] => true | c :: _ => negb (is_digit c) end = true →
  parse_log_line line = Returned None.
Proof. intros H. apply parse_unmatched. by apply re_match_no_digit. Qed.

Lemma X5_must_start_with_digit_witness :
  parse_log_line (txt " 100 instruments: 1,2,3,4,5,6,7,8,9,10,11") = Returned None.
Proof.
  exact (X5_must_start_with_digit
           (txt " 100 instruments: 1,2,3,4,5,6,7,8,9,10,11") eq_refl).
Defined.

(** X6. On a matching line whose integer [int] converts, only the
    number of commas of the payload decides: 10 commas give worker, 23
    give controller, any other number no match; what stands between the
    commas, even nothing, plays no part. *)
Theorem X6_classified_by_comma_count digits data tail :
  digits ≠ [] → forallb is_digit digits = true →
  length digits ≤ int_max_str_digits →
  data ≠ [] → forallb is_dot data = true →
  group_end tail = true →
  parse_log_line (digits ++ LITERAL ++ data ++ tail)
  = Returned
      (if count_char COMMA data =? 10
       then Some (worker, decimal_value digits, data)
       else if count_char COMMA data =? 23
       then Some (controller, decimal_value digits, data)
       else None).
Proof.
  intros Hd Hds Hlim Hr Hrs Ht. rewrite parse_matched by done.
  by rewrite length_split.
Qed.

Lemma X6_classified_by_comma_count_witness :
  parse_log_line (txt "1 instruments: ,,,,,,,,,,")
  = Returned (Some (worker, 1%N, txt ",,,,,,,,,,")).
Proof.
  exact (X6_classified_by_comma_count (txt "1") (txt ",,,,,,,,,,") []
           ltac:(discriminate) eq_refl ltac:(within_limit)
           ltac:(discriminate) eq_refl eq_refl).
Defined.

Lemma X2_classifier_outcome_witness :
  parse_log_line long_other_line = Raised ValueError ∧
  ∃ r, parse_log_line (txt "100 instruments: 1,2") = Returned r.
Proof.
  split.
  - apply (proj1 X2_classifier_outcome long_other_line). by vm_compute.
  - apply (proj1 (proj2 X2_classifier_outcome) (txt "100 instruments: 1,2")).
    by vm_compute.
Defined.

Lemma X3_marker_test_redundant_witness :
  contains MARKER (txt "100 instruments: 1,2") = true.
Proof.
  apply (proj1 (X3_marker_test_redundant (txt "100 instruments: 1,2"))).
  exists (txt "100", txt "1,2"). reflexivity.
Defined.

(** ** More on the rows *)

Lemma count_char_forallb (p : ascii → bool) c s :
  p c = false → forallb p s = true → count_char c s = 0.
Proof.
  intros Hc. unfold count_char. induction s as [|x s IH]; [done|].
  cbn [forallb]. intros [Hx Hs]%andb_true_iff. rewrite filter_cons.
  destruct (Ascii.eqb_spec x c) as [->|]; [congruence|].
  rewrite decide_False by (by intros ?). by apply IH.
Qed.

Lemma count_char_escape_quotes c s :
  c ≠ BACKSLASH → count_char c (escape_quotes s) = count_char c s.
Proof.
  intros Hc. induction s as [|x s IH]; [done|].
  change (escape_quotes (x :: s))
    with ((if Ascii.eqb x DQUOTE then [BACKSLASH; DQUOTE] else [x]) ++ escape_quotes s).
  change (x :: s) with ([x] ++ s). rewrite !count_char_app, IH. f_equal.
  destruct (Ascii.eqb_spec x DQUOTE) as [->|]; [|done].
  unfold count_char. rewrite filter_cons.
  rewrite decide_False; [done|]. intros H%Ascii.eqb_eq. by subst.
Qed.

Lemma take_while_log_entry timestamp data :
  take_while is_digit (log_entry timestamp data) = py_str timestamp ∧
  drop_while is_digit (log_entry timestamp data)
  = [COMMA; SPACE] ++ strip (escape_quotes data).
Proof.
  rewrite log_entry_eq. apply take_while_stop; [apply forallb_is_digit_py_str|done].
Qed.

(** X7. A row has as many comma-separated columns as the header of its
    file, 12 for worker and 25 for controller, and holds no line feed: it
    is one line of the table. *)
Theorem X7_row_width_matches_header line key timestamp data :
  parse_log_line line = Returned (Some (key, timestamp, data)) →
  length (split COMMA (log_entry timestamp data))
  = length (split COMMA match key with
                        | worker => WORKER_CSV_HEADER
                        | controller => CONTROLLER_CSV_HEADER
                        end) ∧
  length (split COMMA (log_entry timestamp data))
  = match key with worker => 12 | controller => 25 end ∧
  forallb is_dot (log_entry timestamp data) = true.
Proof.
  intros H.
  destruct (parse_log_line_inv _ _ _ _ H)
    as (digits & tail & _ & _ & _ & _ & Hdots & _ & _ & Hlen).
  rewrite length_split in Hlen.
  assert (length (split COMMA (log_entry timestamp data))
          = match key with worker => 12 | controller => 25 end) as Hrow.
  { rewrite length_split, log_entry_eq, !count_char_app.
    rewrite (count_char_forallb is_digit COMMA (py_str timestamp))
      by (done || apply forallb_is_digit_py_str).
    rewrite count_char_strip, count_char_escape_quotes by done.
    change (count_char COMMA [COMMA; SPACE]) with 1.
    destruct key; lia. }
  split; [|split; [done|by apply forallb_is_dot_log_entry]].
  rewrite Hrow. by destruct key.
Qed.

Lemma X7_row_width_matches_header_witness :
  length (split COMMA (log_entry 100 (txt "1,2,3,4,5,6,7,8,9,10,11")))
  = length (split COMMA WORKER_CSV_HEADER).
Proof.
  exact (proj1 (X7_row_width_matches_header
                  (txt "100 instruments: 1,2,3,4,5,6,7,8,9,10,11")
                  worker 100%N (txt "1,2,3,4,5,6,7,8,9,10,11") eq_refl)).
Defined.

(** X8. The timestamp can be read back from a row: the digits a row
    begins with are the decimal form of the timestamp and a comma and a
    blank follow them; for the row of a line the classifier accepted,
    [int] of these digits is the timestamp. *)
Theorem X8_timestamp_reads_back :
  (∀ timestamp data,
     take_while is_digit (log_entry timestamp data) = py_str timestamp ∧
     ∃ rest, drop_while is_digit (log_entry timestamp data) = COMMA :: SPACE :: rest) ∧
  (∀ timestamp data,
     length (py_str timestamp) ≤ int_max_str_digits →
     py_int (take_while is_digit (log_entry timestamp data)) = Returned timestamp) ∧
  (∀ line key timestamp data,
     parse_log_line line = Returned (Some (key, timestamp, data)) →
     py_int (take_while is_digit (log_entry timestamp data)) = Returned timestamp).
Proof.
  split; [|split].
  - intros timestamp data.
    destruct (take_while_log_entry timestamp data) as [-> ->].
    split; [done|by eexists].
  - intros timestamp data Hlim.
    destruct (take_while_log_entry timestamp data) as [-> _]. by apply py_int_py_str.
  - intros line key timestamp data
      (digits & tail & _ & Hd & Hds & Hlim & _ & _ & _ & -> & _)%parse_log_line_inv_bound.
    destruct (take_while_log_entry (decimal_value digits) data) as [-> _].
    apply py_int_py_str.
    pose proof (length_py_str_decimal_value digits Hd Hds). lia.
Qed.

Lemma X8_timestamp_reads_back_witness :
  py_int (take_while is_digit (log_entry 100 (txt "1,2,3,4,5,6,7,8,9,10,11")))
  = Returned 100%N.
Proof.
  exact (proj2 (proj2 X8_timestamp_reads_back)
           (txt "100 instruments: 1,2,3,4,5,6,7,8,9,10,11") worker 100%N
           (txt "1,2,3,4,5,6,7,8,9,10,11") eq_refl).
Defined.

Lemma py_str_decimal_value digits :
  forallb is_digit digits = true →
  digits = [ZERO] ∨ (∃ c s, digits = c :: s ∧ c ≠ ZERO) →
  py_str (decimal_value digits) = digits.
Proof.
  intros Hds Hcanon.
  destruct (uint_of_digits digits Hds) as (d & Hd & Hv & _ & Hnil).
  assert (digits ≠ []) as Hne by (by destruct Hcanon as [->|(? & ? & -> & _)]).
  specialize (Hnil Hne).
  assert (Decimal.unorm d = d) as Hnorm.
  { destruct Hcanon as [->|(c & s & -> & Hc)].
    - simpl in Hd. by injection Hd as <-.
    - simpl in Hd.
      destruct (NilEmpty.uint_of_string (string_of_list_ascii s)) as [d'|]; [|done].
      apply uint_of_char_spec in Hd.
      destruct Hd as [[-> _]|Hd]; [done|].
      repeat (destruct Hd as [[_ ->]|Hd]; [done|]). by destruct Hd as [_ ->]. }
  unfold py_str. rewrite <- Hv, <- DecimalPos.Unsigned.of_uint_alt.
  change (Pos.of_uint d) with (N.of_uint d).
  rewrite DecimalN.Unsigned.to_of, Hnorm.
  assert (NilZero.string_of_uint d = NilEmpty.string_of_uint d) as ->
    by (by destruct d).
  rewrite (NilEmpty.sus _ _ Hd). apply list_ascii_of_string_of_list_ascii.
Qed.

(** X9. On a line the classifier accepts, a timestamp written in the
    digits 0 to 9 without zeros in front (or the single digit zero) goes
    into the row as it stands in the line: converting it to an integer and
    back changes nothing. *)
Theorem X9_canonical_timestamp_verbatim digits data tail key timestamp :
  forallb is_digit digits = true →
  digits = [ZERO] ∨ (∃ c s, digits = c :: s ∧ c ≠ ZERO) →
  parse_log_line (digits ++ LITERAL ++ data ++ tail)
  = Returned (Some (key, timestamp, data)) →
  py_str timestamp = digits ∧
  log_entry timestamp data = digits ++ [COMMA; SPACE] ++ strip (escape_quotes data).
Proof.
  intros Hds Hc H.
  destruct (parse_log_line_inv_bound _ _ _ _ H)
    as (digits' & tail' & Hline & _ & Hds' & _ & _ & _ & _ & -> & _).
  destruct (digits_unique _ _ _ _ Hds Hds' Hline) as [<- _].
  rewrite log_entry_eq. by rewrite py_str_decimal_value.
Qed.

Lemma X9_canonical_timestamp_verbatim_witness :
  log_entry 1024 (txt "1,2,3,4,5,6,7,8,9,10,11")
  = txt "1024" ++ [COMMA; SPACE] ++ strip (escape_quotes (txt "1,2,3,4,5,6,7,8,9,10,11")).
Proof.
  refine (proj2 (X9_canonical_timestamp_verbatim (txt "1024")
                   (txt "1,2,3,4,5,6,7,8,9,10,11") [] worker 1024%N eq_refl _ eq_refl)).
  right. eexists _, _. split; [reflexivity|discriminate].
Defined.

Lemma parse_row_none timestamp data tail :
  parse_log_line (log_entry timestamp data ++ tail) = Returned None.
Proof.
  apply parse_unmatched. unfold re_match.
  rewrite log_entry_eq, <- !app_assoc.
  destruct (take_while_stop is_digit (py_str timestamp)
              ([COMMA; SPACE] ++ strip (escape_quotes data) ++ tail)
              (forallb_is_digit_py_str timestamp) eq_refl) as [-> ->].
  by destruct (py_str timestamp).
Qed.

Lemma parse_header_none tail :
  parse_log_line (WORKER_CSV_HEADER ++ tail) = Returned None ∧
  parse_log_line (CONTROLLER_CSV_HEADER ++ tail) = Returned None.
Proof. split; apply parse_unmatched; by apply re_match_no_digit. Qed.

(** X10. What the program writes is never taken for an instrumentation
    line: a row, with anything behind it, is not classified, since a comma
    follows its digits, and neither is a header, which starts with a
    letter. *)
Theorem X10_output_not_reclassified :
  (∀ timestamp data tail,
     parse_log_line (log_entry timestamp data ++ tail) = Returned None) ∧
  (∀ tail, parse_log_line (WORKER_CSV_HEADER ++ tail) = Returned None) ∧
  (∀ tail, parse_log_line (CONTROLLER_CSV_HEADER ++ tail) = Returned None).
Proof.
  split; [apply parse_row_none|]. split; intros tail; apply parse_header_none.
Qed.




Lemma escape_quotes_head s :
  match escape_quotes s with [] => true | c :: _ => negb (Ascii.eqb c DQUOTE) end = true.
Proof.
  destruct s as [|x s]; [done|]. unfold escape_quotes. cbn [flat_map].
  destruct (Ascii.eqb x DQUOTE) eqn:E; simpl; [done|by rewrite E].
Qed.

(** X12. Escaping loses nothing: two payloads with the same escaped
    form are the same payload. *)
Theorem X12_escaping_injective a b :
  replace [DQUOTE] [BACKSLASH; DQUOTE] a = replace [DQUOTE] [BACKSLASH; DQUOTE] b →
  a = b.
Proof.
  rewrite !replace_quotes. revert b.
  induction a as [|x a IH]; intros [|y b] H; [done|..].
  - exfalso. revert H. unfold escape_quotes. cbn [flat_map].
    by destruct (Ascii.eqb y DQUOTE).
  - exfalso. revert H. unfold escape_quotes. cbn [flat_map].
    by destruct (Ascii.eqb x DQUOTE).
  - change (escape_quotes (x :: a))
      with ((if Ascii.eqb x DQUOTE then [BACKSLASH; DQUOTE] else [x]) ++ escape_quotes a) in H.
    change (escape_quotes (y :: b))
      with ((if Ascii.eqb y DQUOTE then [BACKSLASH; DQUOTE] else [y]) ++ escape_quotes b) in H.
    destruct (Ascii.eqb_spec x DQUOTE) as [->|Hx], (Ascii.eqb_spec y DQUOTE) as [->|Hy];
      simpl in H.
    + injection H as H. f_equal. by apply IH.
    + injection H as <- H. exfalso.
      pose proof (escape_quotes_head b) as Hb. rewrite <- H in Hb. done.
    + injection H as -> H. exfalso.
      pose proof (escape_quotes_head a) as Ha. rewrite H in Ha. done.
    + injection H as -> H. f_equal. by apply IH.
Qed.

Lemma X12_escaping_injective_witness :
  txt "a" ++ [DQUOTE] ++ txt "b" = txt "a" ++ [DQUOTE] ++ txt "b".
Proof.
  exact (X12_escaping_injective (txt "a" ++ [DQUOTE] ++ txt "b")
           (txt "a" ++ [DQUOTE] ++ txt "b") eq_refl).
Defined.

(** ** More on the cycle *)

Lemma rows_of_app key lines1 lines2 :
  rows_of key (lines1 ++ lines2) = rows_of key lines1 ++ rows_of key lines2.
Proof.
  induction lines1 as [|line lines1 IH]; [done|]. cbn [app rows_of].
  destruct (parse_log_line line) as [[[[key' timestamp] data]|]|e]; [|done..].
  destruct (decide (key' = key)); [|done]. by rewrite IH.
Qed.

Lemma rows_of_length_le lines :
  length (rows_of worker lines) + length (rows_of controller lines) ≤ length lines.
Proof.
  induction lines as [|line lines IH]; [done|]. cbn [rows_of length].
  destruct (parse_log_line line) as [[[[key timestamp] data]|]|e]; [|lia..].
  destruct key; simpl; lia.
Qed.

Lemma process_lines_returned lines logs logs' :
  process_lines logs lines = Returned logs' → existsb long_integer lines = false.
Proof.
  intros H. destruct (existsb long_integer lines) eqn:E; [|done].
  by rewrite process_lines_raises in H.
Qed.

(** X13. The loop keeps the order of the input and files a line at most
    once: when it returns on each of two stretches of lines, it returns on
    the two put one behind the other, with the lists of the first followed
    by the lists of the second, and the two lists together are no longer
    than the input. *)
Theorem X13_rows_in_input_order lines1 lines2 ws1 cs1 ws2 cs2 :
  process_lines ([], []) lines1 = Returned (ws1, cs1) →
  process_lines ([], []) lines2 = Returned (ws2, cs2) →
  process_lines ([], []) (lines1 ++ lines2) = Returned (ws1 ++ ws2, cs1 ++ cs2) ∧
  process_lines (ws1, cs1) lines2 = Returned (ws1 ++ ws2, cs1 ++ cs2) ∧
  length ws1 + length cs1 ≤ length lines1.
Proof.
  intros H1 H2.
  pose proof (process_lines_returned _ _ _ H1) as L1.
  pose proof (process_lines_returned _ _ _ H2) as L2.
  rewrite process_lines_rows in H1, H2 by done. simpl in H1, H2.
  injection H1 as <- <-. injection H2 as <- <-.
  rewrite !process_lines_rows by (done || by rewrite existsb_app, L1, L2).
  rewrite !rows_of_app. simpl.
  repeat split; try done. apply rows_of_length_le.
Qed.

Lemma X13_rows_in_input_order_witness :
  process_lines ([], [])
    ([txt "1 instruments: 1,2,3,4,5,6,7,8,9,10,11"]
     ++ [txt "2 instruments: 1,2,3,4,5,6,7,8,9,10,11"])
  = Returned ([txt "1, 1,2,3,4,5,6,7,8,9,10,11"] ++ [txt "2, 1,2,3,4,5,6,7,8,9,10,11"],
              [] ++ []).
Proof.
  exact (proj1 (X13_rows_in_input_order
                  [txt "1 instruments: 1,2,3,4,5,6,7,8,9,10,11"]
                  [txt "2 instruments: 1,2,3,4,5,6,7,8,9,10,11"]
                  [txt "1, 1,2,3,4,5,6,7,8,9,10,11"] []
                  [txt "2, 1,2,3,4,5,6,7,8,9,10,11"] [] eq_refl eq_refl)).
Defined.

(** X14. Without the input file a cycle raises before it has opened an
    output file: the two tables of the last cycle stay as they are. *)
Theorem X14_missing_input_keeps_files input wout cout w :
  files w !! input = None →
  process_log input wout cout w = (Raised FileNotFoundError, w).
Proof. apply process_log_missing. Qed.

Lemma X14_missing_input_keeps_files_witness :
  process_log input_file worker_file controller_file (World 0 ∅)
  = (Raised FileNotFoundError, World 0 ∅).
Proof.
  exact (X14_missing_input_keeps_files input_file worker_file controller_file
           (World 0 ∅) eq_refl).
Defined.

(** X15. A cycle touches the two output paths and nothing else: every
    other file, the input file among them, is as it was, and so is the
    clock. *)
Theorem X15_other_files_untouched input wout cout w path :
  path ≠ wout → path ≠ cout →
  files (process_log input wout cout w).2 !! path = files w !! path ∧
  now (process_log input wout cout w).2 = now w.
Proof.
  intros Hw Hc. destruct (files w !! input) as [content|] eqn:Hin.
  - destruct (existsb long_integer (input_lines content)) eqn:Hlong.
    + by rewrite (process_log_raises _ _ _ _ content Hin Hlong).
    + rewrite (process_log_spec _ _ _ _ content Hin Hlong). simpl.
      by rewrite !lookup_insert_ne.
  - by rewrite (process_log_missing _ _ _ _ Hin).
Qed.

Lemma X15_other_files_untouched_witness :
  files (process_log input_file worker_file controller_file (sample_world 0)).2
    !! input_file
  = files (sample_world 0) !! input_file.
Proof.
  exact (proj1 (X15_other_files_untouched input_file worker_file controller_file
                  (sample_world 0) input_file ltac:(discriminate) ltac:(discriminate))).
Defined.

(** X16. Given one path for both tables, a cycle that returns leaves
    the controller table in it: the worker table is written first and then
    replaced. *)
Theorem X16_shared_output_path input out w content :
  files w !! input = Some content →
  existsb long_integer (input_lines content) = false →
  (process_log input out out w).1 = Returned () ∧
  files (process_log input out out w).2 !! out
  = Some (csv CONTROLLER_CSV_HEADER (rows_of controller (input_lines content))).
Proof.
  intros Hin Hlong. rewrite (process_log_spec _ _ _ _ content Hin Hlong). simpl.
  by rewrite lookup_insert_eq.
Qed.

Lemma X16_shared_output_path_witness :
  files (process_log input_file worker_file worker_file (sample_world 0)).2
    !! worker_file
  = Some (csv CONTROLLER_CSV_HEADER (rows_of controller (input_lines sample_log))).
Proof.
  refine (proj2 (X16_shared_output_path input_file worker_file (sample_world 0)
                   sample_log _ _)); vm_compute; reflexivity.
Defined.

(** X17. When no line of the input is classified and none has an integer
    longer than [int] converts, and so for an empty input file, a cycle
    still writes both files, each holding its header and nothing else. *)
Theorem X17_headers_only input wout cout w content :
  files w !! input = Some content →
  wout ≠ cout →
  existsb long_integer (input_lines content) = false →
  count_kind worker (input_lines content) = 0 →
  count_kind controller (input_lines content) = 0 →
  (process_log input wout cout w).1 = Returned () ∧
  files (process_log input wout cout w).2 !! wout = Some WORKER_CSV_HEADER ∧
  files (process_log input wout cout w).2 !! cout = Some CONTROLLER_CSV_HEADER.
Proof.
  intros Hin Hne Hlong Hw Hc. rewrite <- length_rows_of in Hw, Hc.
  rewrite (process_log_spec _ _ _ _ content Hin Hlong). simpl.
  destruct (rows_of worker (input_lines content)); [|done].
  destruct (rows_of controller (input_lines content)); [|done].
  unfold csv. simpl. rewrite ?app_nil_r.
  by rewrite lookup_insert_eq, lookup_insert_ne, lookup_insert_eq.
Qed.

Lemma X17_headers_only_witness :
  (process_log input_file worker_file controller_file empty_log_world).1 = Returned () ∧
  files (process_log input_file worker_file controller_file empty_log_world).2
    !! worker_file = Some WORKER_CSV_HEADER ∧
  files (process_log input_file worker_file controller_file empty_log_world).2
    !! controller_file = Some CONTROLLER_CSV_HEADER.
Proof.
  apply (X17_headers_only input_file worker_file controller_file empty_log_world []).
  - vm_compute. reflexivity.
  - discriminate.
  - reflexivity.
  - reflexivity.
  - reflexivity.
Defined.

(** ** Line ends and aliased paths *)

Lemma universal_newlines_no_cr s :
  no_cr s = true → universal_newlines s = s.
Proof.
  unfold universal_newlines, no_cr. induction s as [|c s IH]; [done|].
  cbn [forallb universal_newlines_from]. intros [Hc Hs]%andb_true_iff.
  apply negb_true_iff in Hc. rewrite Hc.
  destruct (Ascii.eqb_spec c NEWLINE) as [->|]; by rewrite IH.
Qed.

Lemma universal_newlines_to_crlf s :
  no_cr s = true → universal_newlines (to_crlf s) = s.
Proof.
  unfold universal_newlines, no_cr, to_crlf. induction s as [|c s IH]; [done|].
  cbn [forallb flat_map]. intros [Hc Hs]%andb_true_iff.
  apply negb_true_iff in Hc.
  destruct (Ascii.eqb_spec c NEWLINE) as [->|Hn].
  - cbn [app universal_newlines_from].
    change (Ascii.eqb CR CR) with true. change (Ascii.eqb NEWLINE CR) with false.
    change (Ascii.eqb NEWLINE NEWLINE) with true. cbn match. by rewrite IH.
  - cbn [app universal_newlines_from]. rewrite Hc.
    apply Ascii.eqb_neq in Hn. rewrite Hn. by rewrite IH.
Qed.

(** X18. A log whose lines end in carriage return and line feed, none
    of them with an integer longer than [int] converts, gives the same two
    tables as the same log with plain line feeds: reading in text mode
    hands the loop the same lines. *)
Theorem X18_crlf_input input wout cout w w' content :
  no_cr content = true →
  existsb long_integer (input_lines content) = false →
  files w !! input = Some (to_crlf content) →
  files w' !! input = Some content →
  files (process_log input wout cout w).2 !! wout
  = files (process_log input wout cout w').2 !! wout ∧
  files (process_log input wout cout w).2 !! cout
  = files (process_log input wout cout w').2 !! cout.
Proof.
  intros Hcr Hlong Hin Hin'.
  assert (input_lines (to_crlf content) = input_lines content) as Hlines.
  { unfold input_lines.
    by rewrite universal_newlines_to_crlf, universal_newlines_no_cr. }
  rewrite (process_log_spec _ _ _ _ _ Hin) by (by rewrite Hlines).
  rewrite (process_log_spec _ _ _ _ _ Hin' Hlong), Hlines.
  simpl. rewrite !lookup_insert. by repeat case_decide.
Qed.

Lemma X18_crlf_input_witness :
  files (process_log input_file worker_file controller_file
           (World 0 {[ input_file := to_crlf sample_log ]})).2 !! worker_file
  = files (process_log input_file worker_file controller_file (sample_world 0)).2
      !! worker_file.
Proof.
  refine (proj1 (X18_crlf_input input_file worker_file controller_file
                   (World 0 {[ input_file := to_crlf sample_log ]}) (sample_world 0)
                   sample_log eq_refl _ _ _)); vm_compute; reflexivity.
Defined.

(** X19. However often the loop has turned over an input file that
    stays as it is and has no integer longer than [int] converts, every
    turn has returned and the files are those the first cycle left. *)
Theorem X19_polling_loop_snapshot n w content :
  files w !! input_file = Some content →
  existsb long_integer (input_lines content) = false →
  (main_loop (S n) w).1 = Returned () ∧
  files (main_loop (S n) w).2
  = files (process_log input_file worker_file controller_file w).2.
Proof. intros Hin Hlong. by rewrite (main_loop_snapshot n w content). Qed.

Lemma X19_polling_loop_snapshot_witness :
  (main_loop 3 (sample_world 0)).1 = Returned () ∧
  files (main_loop 3 (sample_world 0)).2
  = files (process_log input_file worker_file controller_file (sample_world 0)).2.
Proof.
  refine (X19_polling_loop_snapshot 2 (sample_world 0) sample_log _ _);
    vm_compute; reflexivity.
Defined.

(** X20. Without the input file the loop ends in its first turn with
    the error of the failed open, and no file has been touched. *)
Theorem X20_polling_loop_missing n w :
  files w !! input_file = None →
  main_loop (S n) w = (Raised FileNotFoundError, w).
Proof. apply main_loop_missing. Qed.

Lemma X20_polling_loop_missing_witness :
  main_loop 5 (World 7 ∅) = (Raised FileNotFoundError, World 7 ∅).
Proof. exact (X20_polling_loop_missing 4 (World 7 ∅) eq_refl). Defined.

Lemma universal_newlines_from_no_cr_out after_cr s :
  no_cr (universal_newlines_from after_cr s) = true.
Proof.
  unfold no_cr. revert after_cr. induction s as [|c s IH]; intros after_cr; [done|].
  cbn [universal_newlines_from].
  destruct (Ascii.eqb c CR) eqn:Ecr; [by cbn [forallb]; rewrite IH|].
  destruct (Ascii.eqb_spec c NEWLINE) as [->|].
  - destruct after_cr; [done|]. cbn [forallb]. by rewrite IH.
  - cbn [forallb]. by rewrite Ecr, IH.
Qed.

Lemma iter_lines_forallb p s :
  forallb p s = true → Forall (fun line => forallb p line = true) (iter_lines s).
Proof.
  induction s as [|c s IH]; [constructor|].
  cbn [forallb iter_lines]. intros [Hc Hs]%andb_true_iff. specialize (IH Hs).
  destruct (Ascii.eqb c NEWLINE).
  - constructor; [|done]. simpl. by rewrite Hc.
  - destruct (iter_lines s) as [|l ls].
    + constructor; [|done]. simpl. by rewrite Hc.
    + inversion IH as [|? ? Hl Hls]; subst. constructor; [|done].
      simpl. by rewrite Hc, Hl.
Qed.

Lemma digit_no_cr c : is_digit c = true → negb (Ascii.eqb c CR) = true.
Proof.
  destruct (Ascii.eqb_spec c CR) as [->|]; [|done]. by vm_compute.
Qed.

Lemma rows_of_no_cr key lines :
  Forall (fun line => no_cr line = true) lines →
  Forall (fun row => no_cr row = true) (rows_of key lines).
Proof.
  intros Hlines. apply Forall_forall.
  intros row (digits & data & tail & Hin & _ & _ & _ & _ & _ & ->)%rows_of_origin.
  rewrite Forall_forall in Hlines. specialize (Hlines _ Hin).
  unfold no_cr in *. rewrite !forallb_app in Hlines.
  apply andb_true_iff in Hlines as [_ Hlines].
  apply andb_true_iff in Hlines as [_ Hlines].
  apply andb_true_iff in Hlines as [Hdata _].
  rewrite !forallb_app.
  rewrite (forallb_impl is_digit _ _ digit_no_cr (forallb_is_digit_py_str _)).
  rewrite forallb_strip; [done|]. by apply forallb_escape_quotes.
Qed.

Lemma no_cr_csv header rows :
  no_cr header = true →
  Forall (fun row => no_cr row = true) rows →
  no_cr (csv header rows) = true.
Proof.
  intros Hh Hrows. unfold csv, no_cr in *. rewrite forallb_app, Hh. simpl.
  induction Hrows as [|row rows Hrow _ IH]; [done|].
  cbn [map concat]. rewrite !forallb_app, Hrow, IH. done.
Qed.

Lemma rows_of_are_entries key lines :
  Forall (fun row => ∃ timestamp data, row = log_entry timestamp data)
         (rows_of key lines).
Proof.
  induction lines as [|line lines IH]; [constructor|]. cbn [rows_of].
  destruct (parse_log_line line) as [[[[key' timestamp] data]|]|e]; [|done..].
  destruct (decide (key' = key)); [|done]. constructor; [by eexists _, _|done].
Qed.

Lemma rows_of_entries_nil key rows :
  Forall (fun row => ∃ timestamp data, row = log_entry timestamp data) rows →
  rows_of key (map (fun row => row ++ [NEWLINE]) rows) = [].
Proof.
  induction 1 as [|row rows (timestamp & data & ->) _ IH]; [done|].
  cbn [map rows_of]. by rewrite parse_row_none.
Qed.

Lemma long_integer_returned line r :
  parse_log_line line = Returned r → long_integer line = false.
Proof.
  intros H. destruct (parse_log_line_outcome line) as [[_ ?]|[? _]]; [congruence|done].
Qed.

Lemma long_integer_entries rows :
  Forall (fun row => ∃ timestamp data, row = log_entry timestamp data) rows →
  existsb long_integer (map (fun row => row ++ [NEWLINE]) rows) = false.
Proof.
  induction 1 as [|row rows (timestamp & data & ->) _ IH]; [done|].
  cbn [map existsb].
  by rewrite (long_integer_returned _ _ (parse_row_none timestamp data [NEWLINE])).
Qed.

(** The lines of a table the program wrote, read back as input. *)
Lemma input_lines_table key lines :
  Forall (fun line => no_cr line = true) lines →
  input_lines (csv match key with
                   | worker => WORKER_CSV_HEADER
                   | controller => CONTROLLER_CSV_HEADER
                   end (rows_of key lines))
  = match key with
    | worker => WORKER_CSV_HEADER
    | controller => CONTROLLER_CSV_HEADER
    end :: map (fun row => row ++ [NEWLINE]) (rows_of key lines).
Proof.
  intros Hlines. unfold input_lines.
  rewrite universal_newlines_no_cr
    by (apply no_cr_csv; [by destruct key|by apply rows_of_no_cr]).
  destruct header_lines as [(hw & Ehw & Hhw) (hc & Ehc & Hhc)].
  destruct key.
  - by rewrite Ehw, iter_lines_csv by (done || apply rows_of_no_newline).
  - by rewrite Ehc, iter_lines_csv by (done || apply rows_of_no_newline).
Qed.

(** Such a table holds no line that is classified, and none that makes
    the classifier raise. *)
Lemma rows_of_table key key' lines :
  Forall (fun line => no_cr line = true) lines →
  rows_of key'
    (input_lines (csv match key with
                      | worker => WORKER_CSV_HEADER
                      | controller => CONTROLLER_CSV_HEADER
                      end (rows_of key lines)))
  = [] ∧
  existsb long_integer
    (input_lines (csv match key with
                      | worker => WORKER_CSV_HEADER
                      | controller => CONTROLLER_CSV_HEADER
                      end (rows_of key lines)))
  = false.
Proof.
  intros Hlines. rewrite input_lines_table by done.
  assert (parse_log_line match key with
                         | worker => WORKER_CSV_HEADER
                         | controller => CONTROLLER_CSV_HEADER
                         end = Returned None) as Hh.
  { destruct key.
    - rewrite <- (app_nil_r WORKER_CSV_HEADER). exact (proj1 (parse_header_none [])).
    - rewrite <- (app_nil_r CONTROLLER_CSV_HEADER). exact (proj2 (parse_header_none [])). }
  cbn [rows_of existsb]. rewrite Hh, (long_integer_returned _ _ Hh).
  split.
  - apply rows_of_entries_nil, rows_of_are_entries.
  - apply long_integer_entries, rows_of_are_entries.
Qed.

Lemma input_lines_no_cr content :
  Forall (fun line => no_cr line = true) (input_lines content).
Proof. apply iter_lines_forallb, universal_newlines_from_no_cr_out. Qed.

(** X21. Nothing keeps the input path apart from an output path.  When
    the worker table is written over the input file and the cycle returns,
    the log is replaced by that table, and the second cycle, reading the
    table, finds no instrumentation line: both files end up holding their
    header and nothing else. *)
Theorem X21_input_aliased_with_output path cout w content :
  files w !! path = Some content →
  path ≠ cout →
  existsb long_integer (input_lines content) = false →
  files (process_log path path cout w).2 !! path
  = Some (csv WORKER_CSV_HEADER (rows_of worker (input_lines content))) ∧
  (process_log path path cout (process_log path path cout w).2).1 = Returned () ∧
  files (process_log path path cout (process_log path path cout w).2).2 !! path
  = Some WORKER_CSV_HEADER ∧
  files (process_log path path cout (process_log path path cout w).2).2 !! cout
  = Some CONTROLLER_CSV_HEADER.
Proof.
  intros Hin Hne Hlong.
  rewrite (process_log_spec _ _ _ _ content Hin Hlong). cbn [snd].
  assert (files
            (with_files
               (fun fs =>
                  <[cout := csv CONTROLLER_CSV_HEADER (rows_of controller (input_lines content))]>
                    (<[path := csv WORKER_CSV_HEADER (rows_of worker (input_lines content))]> fs))
               w) !! path
          = Some (csv WORKER_CSV_HEADER (rows_of worker (input_lines content)))) as Hin1.
  { simpl. by rewrite lookup_insert_ne, lookup_insert_eq. }
  split; [done|].
  destruct (rows_of_table worker worker _ (input_lines_no_cr content)) as [Hw Hl].
  destruct (rows_of_table worker controller _ (input_lines_no_cr content)) as [Hc _].
  rewrite (process_log_spec _ _ _ _ _ Hin1 Hl), Hw, Hc.
  unfold csv. simpl. rewrite ?app_nil_r.
  split; [done|]. split.
  - by rewrite lookup_insert_ne, lookup_insert_eq.
  - by rewrite lookup_insert_eq.
Qed.

Lemma X21_input_aliased_with_output_witness :
  files (process_log input_file input_file controller_file
           (process_log input_file input_file controller_file (sample_world 0)).2).2
    !! input_file
  = Some WORKER_CSV_HEADER.
Proof.
  refine (proj1 (proj2 (proj2 (X21_input_aliased_with_output input_file controller_file
                                 (sample_world 0) sample_log _ _ _)))).
  - vm_compute. reflexivity.
  - discriminate.
  - vm_compute. reflexivity.
Defined.

(** X22. A line that the pattern matches with an integer longer than
    [int] converts ends the cycle with the error of [int] before an output
    file is opened, whatever the other lines are: every file is as it was.
    The loop ends with it in its first turn. *)
Theorem X22_long_integer_stops_cycle input wout cout w content :
  files w !! input = Some content →
  existsb long_integer (input_lines content) = true →
  process_log input wout cout w = (Raised ValueError, w) ∧
  (input = input_file → wout = worker_file → cout = controller_file →
   ∀ n, main_loop (S n) w = (Raised ValueError, w)).
Proof.
  intros Hin Hlong. split; [by apply process_log_raises with content|].
  intros -> -> -> n. by apply main_loop_raises with content.
Qed.

Lemma X22_long_integer_stops_cycle_witness :
  process_log input_file worker_file controller_file long_world
  = (Raised ValueError, long_world).
Proof.
  refine (proj1 (X22_long_integer_stops_cycle input_file worker_file controller_file
                   long_world long_log _ _)); vm_compute; reflexivity.
Defined.
